(** * LittleJohn: the Polygon ingestion engine of [option_bot/polygon_utils.py]

    A shallow embedding of the paginator classes of [polygon_utils.py] and
    the properties of the pagination engine, the rate governor, the record
    normalizers, the batch sequencer and the calendar window generator.

    Conventions of the embedding.
    - A Python [dict] is an insertion-ordered association list with distinct
      keys ([dict_set] overwrites in place or appends, as CPython does).
    - Field values are JSON scalars: [None], integers (Python's [bool] is a
      subclass of [int]: [True == 1] and both hash alike, so booleans are
      the integers 0 and 1) and strings. Leibniz equality on [pyval] is
      then Python's [==] on these values.
    - Request parameters are the one place where a [bool] is not an
      integer: the HTTP client accepts an [int] in a query string and
      refuses a [bool], so [param] keeps the two apart.
    - An [async def] is a function from the state of [self] and the list of
      responses the upstream will deliver, in order, to an outcome, the new
      state of [self] and the trace of observable events. A run that has
      issued a request the upstream never answers is [Awaiting].
    - Exceptions are values of [exn]; attribute mutations made before a
      [raise] stay in the returned state.

    Outside the embedding: non-integral numbers and nested JSON values in
    the fields of a record, the recursion limit of the interpreter (a chain
    too long for it ends in [RecursionError]), and the process pool of
    [OptionsContracts.query_data]. The helpers of [utils], which the
    repository keeps in another file, are parameters. *)

From stdpp Require Import base option list strings pretty.
From Stdlib Require Import ZArith Lia.

(** ** Python values *)

Inductive pyval : Type :=
| PNone
| PInt (n : Z)
| PStr (s : string).

#[global] Instance pyval_eq_dec : EqDecision pyval.
Proof. solve_decision. Defined.

(** [bool(v)], as used by [if v:]. *)
Definition truthy (v : pyval) : bool :=
  match v with
  | PNone => false
  | PInt n => negb (n =? 0)%Z
  | PStr s => negb (String.eqb s "")
  end.

(** ** Exceptions and the error monad *)

Inductive exn : Type :=
| ClientResponseError (status : Z)   (* aiohttp, carries the HTTP status *)
| KeyError (key : string)
| TypeError
| IndexError
| ZeroDivisionError
| ValueError
| Exception.

Inductive result (A : Type) : Type :=
| Ok (a : A)
| Raise (e : exn).
Arguments Ok {A} a.
Arguments Raise {A} e.

#[global] Instance result_ret : MRet result := fun A a => Ok a.
#[global] Instance result_bind : MBind result := fun A B f m =>
  match m with
  | Ok a => f a
  | Raise e => Raise e
  end.

(** ** Insertion-ordered dictionaries *)

Abbreviation pydict K V := (list (K * V)).

Section pydict.
Context {K V : Type} `{EqDecision K}.

(** [d[k]], [None] standing for [KeyError]. *)
Fixpoint dict_lookup (d : pydict K V) (k : K) : option V :=
  match d with
  | [] => None
  | (k', v) :: d' => if decide (k' = k) then Some v else dict_lookup d' k
  end.

(** [d[k] = v]: an existing key keeps its position, a new key goes last. *)
Fixpoint dict_set (d : pydict K V) (k : K) (v : V) : pydict K V :=
  match d with
  | [] => [(k, v)]
  | (k', v') :: d' =>
      if decide (k' = k) then (k', v) :: d' else (k', v') :: dict_set d' k v
  end.

Definition dict_keys (d : pydict K V) : list K := d.*1.
Definition dict_values (d : pydict K V) : list V := d.*2.
End pydict.

(** A JSON object of scalars, and [record.get(key)]. *)
Abbreviation jobject := (pydict string pyval).

Definition dict_get (d : jobject) (k : string) : pyval :=
  default PNone (dict_lookup d k).

(** [d[k]] on a record, raising [KeyError]. *)
Definition dict_item (d : jobject) (k : string) : result pyval :=
  match dict_lookup d k with
  | Some v => Ok v
  | None => Raise (KeyError k)
  end.

(** ** Request parameters

    The values of the [params] dict handed to [aiohttp.request]. The client
    (yarl) builds the query string from them and accepts a [str], an [int]
    that is not a [bool] and a [float]; for any other value, [True], [False]
    and [None] among them, it raises [TypeError] while it builds the URL,
    before anything is sent. *)
Inductive param : Type :=
| ParamBool (b : bool)
| Param (v : pyval).

(** The value that goes into the query string. *)
Definition query_var (p : param) : result pyval :=
  match p with
  | Param (PStr s) => Ok (PStr s)
  | Param (PInt n) => Ok (PInt n)
  | Param PNone | ParamBool _ => Raise TypeError
  end.

(** The query string of a [params] dict, built value by value. *)
Fixpoint query_vars (params : pydict string param) : result jobject :=
  match params with
  | [] => Ok []
  | (k, p) :: params =>
      v ← query_var p;
      vs ← query_vars params;
      Ok ((k, v) :: vs)
  end.

(** A parameter as a field value, the way a log line shows the dict. *)
Definition param_value (p : param) : pyval :=
  match p with
  | ParamBool b => PInt (if b then 1 else 0)
  | Param v => v
  end.

Definition param_values (params : pydict string param) : jobject :=
  (fun kp => (kp.1, param_value kp.2)) <$> params.

(** A decoded response body: [request_id] and [next_url] as [.get] reads
    them ([None] when absent) and the ["results"] array, [None] when the key
    is absent. *)
Record page : Type := Page {
  request_id : pyval;
  next_url : pyval;
  page_results : option (list jobject)
}.

(** ** Integer helpers *)

(** [math.ceil(a / b)] for [0 < b]. *)
Definition ceil_div (a b : Z) : Z := (- ((- a) / b))%Z.

(** [round(a / b)] for [0 <= a] and [0 < b]: Python rounds the quotient to
    the nearest integer, ties to the even one. For [a = 60000] the float
    quotient can never be rounded onto a tie it was not on: a quotient off
    a tie is at least [1 / (2 b)] away from it, far more than the float
    error [60000 / b * 2^-53]. *)
Definition round_div (a b : Z) : Z :=
  let q := (a / b)%Z in
  let r := (a mod b)%Z in
  if (2 * r <? b)%Z then q
  else if (b <? 2 * r)%Z then (q + 1)%Z
  else if Z.even q then q else (q + 1)%Z.

(** [range(0, stop, step)] for [0 < step]. *)
Definition py_range (stop step : nat) : list nat :=
  (fun j => j * step) <$> seq 0 (Nat.div (stop + step - 1) step).

(** [l[i : j]] for [0 <= i <= j]. *)
Definition slice {A} (l : list A) (i j : nat) : list A := take (j - i) (drop i l).

(** * class PolygonPaginator *)
Module PolygonPaginator.

Definition MAX_QUERY_PER_MINUTE : Z := 4.

(** What the upstream delivers for one request; [clock] is the reading
    [time.time()] returns while this response is handled. *)
Record response {timestamp : Type} : Type := Response {
  status : Z;
  json : page;
  clock : timestamp
}.
Arguments response : clear implicits.

Record QueryLogEntry {timestamp : Type} : Type := LogEntry {
  log_request_id : pyval;
  query_timestamp : timestamp
}.
Arguments QueryLogEntry : clear implicits.

(** [self.clean_data_generator]: the empty iterator of [__init__] or the
    generator object of [make_clean_generator], whose body has not run. *)
Inductive generator : Type :=
| EmptyIter
| CleanGenerator.

(** The attributes of an instance. *)
Record paginator {timestamp : Type} : Type := Paginator {
  query_count : Z;
  query_time_log : list (QueryLogEntry timestamp);
  results : list page;
  clean_results : list jobject;
  clean_data_generator : generator
}.
Arguments paginator : clear implicits.

Inductive outcome : Type :=
| Returned
| Raised (e : exn)
| Awaiting.

Inductive event : Type :=
| Sleep (seconds : Z)
| LogInfo (url : pyval) (payload : jobject) (overload : bool)
| Get (url : pyval) (params : jobject)
| LogStatus (status : Z).

Section engine.
Context {timestamp : Type}.
(** [proj_constants.POLYGON_API_KEY] ([os.getenv], possibly [None]). *)
Variable POLYGON_API_KEY : pyval.
(** [utils.timestamp_to_datetime] on a clock reading; a [datetime] is its
    count of microseconds, so that [b - a] is the [timedelta] between
    two of them. *)
Variable timestamp_to_datetime : timestamp -> Z.

Abbreviation paginator := (paginator timestamp).
Abbreviation response := (response timestamp).

Definition __init__ : paginator :=
  {| query_count := 0; query_time_log := []; results := [];
     clean_results := []; clean_data_generator := EmptyIter |}.

Definition set_query_count (self : paginator) (n : Z) : paginator :=
  {| query_count := n; query_time_log := query_time_log self;
     results := results self; clean_results := clean_results self;
     clean_data_generator := clean_data_generator self |}.

Definition set_query_time_log (self : paginator) l : paginator :=
  {| query_count := query_count self; query_time_log := l;
     results := results self; clean_results := clean_results self;
     clean_data_generator := clean_data_generator self |}.

Definition set_results (self : paginator) l : paginator :=
  {| query_count := query_count self; query_time_log := query_time_log self;
     results := l; clean_results := clean_results self;
     clean_data_generator := clean_data_generator self |}.

Definition set_clean_results (self : paginator) l : paginator :=
  {| query_count := query_count self; query_time_log := query_time_log self;
     results := results self; clean_results := l;
     clean_data_generator := clean_data_generator self |}.

Definition set_clean_data_generator (self : paginator) g : paginator :=
  {| query_count := query_count self; query_time_log := query_time_log self;
     results := results self; clean_results := clean_results self;
     clean_data_generator := g |}.

Definition _api_sleep_time (self : paginator) : Z :=
  let sleep_time := 60%Z in
  if decide (2 < length (query_time_log self)) then
    match head (query_time_log self), last (query_time_log self) with
    | Some e0, Some e1 =>
        let a := timestamp_to_datetime (query_timestamp e0) in
        let b := timestamp_to_datetime (query_timestamp e1) in
        let diff := ceil_div (b - a) 1000000 in
        if (diff <? sleep_time)%Z then diff else sleep_time
    | _, _ => sleep_time
    end
  else sleep_time.

(** Lines 50-53 of [query_all]: the sleep and the reset. *)
Definition throttle (self : paginator) (overload : bool)
  : paginator * list event :=
  if (MAX_QUERY_PER_MINUTE <=? query_count self)%Z || overload then
    (set_query_time_log (set_query_count self 0) [],
     [Sleep (_api_sleep_time self)])
  else (self, []).

(** [response.raise_for_status()]: aiohttp raises for a status of 400 or
    more and returns otherwise. *)
Definition raise_for_status (status : Z) : outcome :=
  if (400 <=? status)%Z then Raised (ClientResponseError status) else Returned.

Definition prepend (evs : list event) (r : outcome * paginator * list event)
  : outcome * paginator * list event :=
  let '(o, self, t) := r in (o, self, evs ++ t).

(** [query_all(url, payload, overload)]. The default [payload={}] is one
    shared dict; the only key ever stored in it is ["apiKey"], which every
    call stores again, so a call with the default sees [{}] or
    [{"apiKey": ...}] and sends the same parameters either way. *)
Fixpoint query_all (upstream : list response) (url : pyval) (payload : jobject)
    (overload : bool) (self : paginator) : outcome * paginator * list event :=
  let payload := dict_set payload "apiKey" POLYGON_API_KEY in
  let '(self, slept) := throttle self overload in
  prepend (slept ++ [LogInfo url payload overload; Get url payload])
    match upstream with
    | [] => (Awaiting, self, [])
    | response :: upstream =>
        prepend [LogStatus (status response)]
          (let self := set_query_count self (query_count self + 1) in
           if (status response =? 200)%Z then
             let results_ := json response in
             let self :=
               set_query_time_log self
                 (query_time_log self ++
                    [{| log_request_id := request_id results_;
                        query_timestamp := clock response |}]) in
             let self := set_results self (results self ++ [results_]) in
             let next_url := next_url results_ in
             if truthy next_url then query_all upstream next_url [] false self
             else (Returned, self, [])
           else if (status response =? 429)%Z then
             query_all upstream url payload true self
           else (raise_for_status (status response), self, []))
    end.

(** [query_all(url, payload, overload)] as an inheriting class calls it,
    with parameters of any kind. The request of line 56 is the first to
    build a query string, from the payload with the credential in it; when
    the client refuses a value, the call raises [TypeError] there: after the
    governor and the log line of lines 50-55, before anything is sent and
    before [query_count] moves. Every later request of the run sends the
    same parameters again (the retry of a 429) or the credential alone (a
    cursor), so parameters that were accepted once are accepted throughout
    and the run is that of [query_all] on their values. *)
Definition query_all_params (upstream : list response) (url : pyval)
    (payload : pydict string param) (overload : bool) (self : paginator)
  : outcome * paginator * list event :=
  let payload := dict_set payload "apiKey" (Param POLYGON_API_KEY) in
  match query_vars payload with
  | Ok params => query_all upstream url params overload self
  | Raise e =>
      let '(self, slept) := throttle self overload in
      (Raised e, self, slept ++ [LogInfo url (param_values payload) overload])
  end.

(** The batches [make_clean_generator] yields when its generator is driven
    to exhaustion, and the exception that ends the iteration, if any.
    Calling the generator function itself runs none of this body. *)
Definition make_clean_generator (self : paginator)
  : list (list jobject) * option exn :=
  match clean_results self !! 0%nat with
  | None => ([], Some IndexError)
  | Some first =>
      let record_size := Z.of_nat (length first) in
      if (record_size =? 0)%Z then ([], Some ZeroDivisionError)
      else
        let batch_size := Z.to_nat (round_div 60000 record_size) in
        if decide (batch_size = 0%nat) then ([], Some ValueError)
        else
          ((fun i => slice (clean_results self) i (i + batch_size))
             <$> py_range (length (clean_results self)) batch_size,
           None)
  end.

(** [list(self.clean_data_generator)]. *)
Definition drain (self : paginator) : list (list jobject) * option exn :=
  match clean_data_generator self with
  | EmptyIter => ([], None)
  | CleanGenerator => make_clean_generator self
  end.

(** The shell methods of the base class. *)
Definition query_data (upstream : list response) (self : paginator)
  : outcome * paginator * list event :=
  (Raised Exception, self, []).

Definition clean_data (self : paginator) : paginator * option exn :=
  (self, Some Exception).

(** [fetch], over the [query_data] and [clean_data] of the inheriting
    class. *)
Definition fetch
    (query_data : list response -> paginator -> outcome * paginator * list event)
    (clean_data : paginator -> paginator * option exn)
    (upstream : list response) (self : paginator)
  : outcome * paginator * list event :=
  match query_data upstream self with
  | (Returned, self, t) =>
      match clean_data self with
      | (self, None) =>
          (Returned, set_clean_data_generator self CleanGenerator, t)
      | (self, Some e) => (Raised e, self, t)
      end
  | r => r
  end.

End engine.

End PolygonPaginator.

(** [for x in l: body], stopping at the first exception with the state
    reached so far. *)
Fixpoint for_each {A S : Type} (body : A -> S -> S * option exn)
    (l : list A) (s : S) : S * option exn :=
  match l with
  | [] => (s, None)
  | x :: l =>
      match body x s with
      | (s, None) => for_each body l s
      | (s, Some e) => (s, Some e)
      end
  end.

(** [{k: v for k, v in items}]. *)
Definition dict_of_items {K V : Type} `{EqDecision K} (items : list (K * V))
  : pydict K V :=
  foldl (fun d kv => dict_set d kv.1 kv.2) [] items.

(** * class StockMetaData *)
Module StockMetaData.
Import PolygonPaginator.

Section kind.
Context {timestamp : Type}.
Variable POLYGON_API_KEY : pyval.
Variable timestamp_to_datetime : timestamp -> Z.
Variable ticker : pyval.
Variable all_ : bool.

(** [self.payload] of [__init__]: ["active"] holds the [bool] [True]. *)
Definition payload : pydict string param :=
  [("active", ParamBool true); ("market", Param (PStr "stocks"));
   ("limit", Param (PInt 1000))].

Definition query_data (upstream : list (response timestamp))
    (self : paginator timestamp) : outcome * paginator timestamp * list event :=
  let url := PStr ("https://api.polygon.io" +:+ "/v3/reference/tickers") in
  let payload :=
    if negb all_ then dict_set payload "ticker" (Param ticker) else payload in
  query_all_params POLYGON_API_KEY timestamp_to_datetime upstream url payload
    false self.

Definition selected_keys : list string :=
  ["ticker"; "name"; "type"; "active"; "market"; "locale";
   "primary_exchange"; "currency_name"; "cik"].

(** The record [t] built from one upstream record. *)
Definition normalize (ticker : jobject) : jobject :=
  dict_of_items ((fun x => (x, dict_get ticker x)) <$> selected_keys).

Definition clean_data (self : paginator timestamp)
  : paginator timestamp * option exn :=
  for_each (fun result_list self =>
      match page_results result_list with
      | None => (self, Some (KeyError "results"))
      | Some tickers =>
          for_each (fun ticker self =>
              let t := normalize ticker in
              (set_clean_results self (clean_results self ++ [t]), None))
            tickers self
      end)
    (results self) self.

End kind.
End StockMetaData.

(** * class HistoricalStockPrices *)
Module HistoricalStockPrices.
Import PolygonPaginator.

Section kind.
Context {timestamp : Type}.
Variable POLYGON_API_KEY : pyval.
Variable timestamp_to_datetime : timestamp -> Z.
(** [utils.timestamp_to_datetime(_, msec_units=True)] on a field value. *)
Variable timestamp_to_datetime_msec : pyval -> result pyval.
Variable ticker : string.
Variable ticker_id : pyval.
Variable multiplier : Z.
Variable timespan : string.
Variable start_date end_date : string.
Variable adjusted : bool.

Definition query_data (upstream : list (response timestamp))
    (self : paginator timestamp) : outcome * paginator timestamp * list event :=
  let url :=
    PStr ("https://api.polygon.io" +:+ "/v2/aggs/ticker/" +:+ ticker +:+ "/range/"
          +:+ pretty multiplier +:+ "/" +:+ timespan +:+ "/" +:+ start_date
          +:+ "/" +:+ end_date) in
  let payload :=
    [("adjusted", ParamBool adjusted); ("sort", Param (PStr "desc"));
     ("limit", Param (PInt 50000))] in
  query_all_params POLYGON_API_KEY timestamp_to_datetime upstream url payload
    false self.

Definition key_mapping : pydict string string :=
  [("v", "volume"); ("vw", "volume_weight_price"); ("c", "close_price");
   ("o", "open_price"); ("h", "high_price"); ("l", "low_price");
   ("t", "as_of_date"); ("n", "number_of_transactions"); ("otc", "otc")].

(** The record [t] built from one upstream record. *)
Definition normalize (record : jobject) : result jobject :=
  let t := dict_of_items ((fun kv => (kv.2, dict_get record kv.1)) <$> key_mapping) in
  as_of_date ← dict_item t "as_of_date";
  d ← timestamp_to_datetime_msec as_of_date;
  let t := dict_set t "as_of_date" d in
  let t := dict_set t "ticker_id" ticker_id in
  Ok t.

Definition clean_data (self : paginator timestamp)
  : paginator timestamp * option exn :=
  for_each (fun page self =>
      match page_results page with
      | None => (self, Some TypeError)
      | Some records =>
          for_each (fun record self =>
              match normalize record with
              | Raise e => (self, Some e)
              | Ok t => (set_clean_results self (clean_results self ++ [t]), None)
              end)
            records self
      end)
    (results self) self.

End kind.
End HistoricalStockPrices.

(** * class OptionsContracts *)
Module OptionsContracts.
Import PolygonPaginator.

Section kind.
Context {timestamp : Type}.
(** The argument and the result of [utils.first_weekday_of_month] are
    arrays; [first_weekday_of_month ym] is the entry of the result for the
    year-month [ym], and [date_str] is [str] on such an entry. *)
Context {date : Type}.
Variable first_weekday_of_month : string -> date.
Variable date_str : date -> string.
Variable ticker_id : pyval.

(** The [while] loop of [_determine_base_dates]; [None] when [fuel] runs out
    before the loop condition fails. *)
Fixpoint base_dates_loop (fuel : nat) (months_hist counter year month : Z)
    (year_month_array : list string) : option (list string) :=
  if (counter <=? months_hist)%Z then
    match fuel with
    | O => None
    | S fuel =>
        let year_month_array :=
          year_month_array ++
            [if decide (1 < String.length (pretty month))
             then pretty year +:+ "-" +:+ pretty month
             else pretty year +:+ "-0" +:+ pretty month] in
        if (month =? 1)%Z
        then base_dates_loop fuel months_hist (counter + 1) (year - 1) 12 year_month_array
        else base_dates_loop fuel months_hist (counter + 1) year (month - 1) year_month_array
    end
  else Some year_month_array.

(** [_determine_base_dates], with [datetime.now()] in the year [now_year]
    and the month [now_month]. *)
Definition _determine_base_dates (now_year now_month months_hist : Z)
  : option (list string) :=
  match base_dates_loop (Z.to_nat (months_hist + 1)) months_hist
          0 now_year now_month [] with
  | Some year_month_array =>
      Some ((fun ym => date_str (first_weekday_of_month ym)) <$> year_month_array)
  | None => None
  end.

Definition key_mapping : pydict string string :=
  [("ticker", "option_ticker"); ("expiration_date", "expiration_date");
   ("strike_price", "strike_price"); ("contract_type", "contract_type");
   ("shares_per_contract", "shares_per_contract");
   ("primary_exchange", "primary_exchange");
   ("exercise_style", "exercise_style"); ("cfi", "cfi")].

(** [{v["option_ticker"]: v for v in clean_results}]. *)
Fixpoint by_option_ticker (d : pydict pyval jobject) (clean_results : list jobject)
  : result (pydict pyval jobject) :=
  match clean_results with
  | [] => Ok d
  | v :: clean_results =>
      k ← dict_item v "option_ticker";
      by_option_ticker (dict_set d k v) clean_results
  end.

(** The record [t] built from one upstream record. *)
Definition normalize (record : jobject) : jobject :=
  let t := dict_of_items ((fun kv => (kv.2, dict_get record kv.1)) <$> key_mapping) in
  dict_set t "underlying_ticker_id" ticker_id.

Definition clean_data (self : paginator timestamp)
  : paginator timestamp * option exn :=
  for_each (fun page self =>
      match page_results page with
      | None => (self, Some TypeError)
      | Some records =>
          for_each (fun record self =>
              let t := normalize record in
              let self := set_clean_results self (clean_results self ++ [t]) in
              match by_option_ticker [] (clean_results self) with
              | Raise e => (self, Some e)
              | Ok d => (set_clean_results self (dict_values d), None)
              end)
            records self
      end)
    (results self) self.

End kind.
End OptionsContracts.

(** * main.py *)
Module Main.

(** What [parse_args] finds on the command line: the positional tickers,
    the value of each option that takes one ([None] when the option is not
    given) and the flags. *)
Record command_line : Type := CommandLine {
  cl_tickers : list string;
  cl_startdate : option string;
  cl_enddate : option string;
  cl_monthhist : option string;
  cl_remove : bool;
  cl_add_all : bool;
  cl_refresh : bool
}.

(** The attribute argparse stores for an option declared with [nargs=1]:
    the default as it is when the option is not given, and a list of one
    string when it is. *)
Inductive attribute (D : Type) : Type :=
| Default (d : D)
| Given (values : list string).
Arguments Default {D} d.
Arguments Given {D} values.

Definition DEFAULT_MONTHS_HIST : Z := 24.

Section cli.
(** [datetime.strptime(_, "%Y-%m")] on a string, and the two defaults
    [DEFAULT_START_DATE.strftime("%Y-%m")] and
    [datetime.now().strftime("%Y-%m")]. *)
Context {datetime : Type}.
Variable strptime : string -> result datetime.
Variable default_startdate default_enddate : string.

(** [args] once the two dates have been parsed. *)
Record namespace : Type := Namespace {
  tickers : list string;
  startdate : datetime;
  enddate : datetime;
  monthhist : attribute Z;
  remove : bool;
  add_all : bool;
  refresh : bool
}.

(** An element of the list [add_ticker] builds. *)
Record ticker_request : Type := TickerRequest {
  ticker : string;
  start_date : datetime;
  end_date : datetime;
  months_hist : attribute Z
}.

(** The call into the orchestrator a run of [main] makes. *)
Inductive action : Type :=
| remove_tickers_from_universe (tickers : list string)
| import_all_tickers (args : namespace)
| add_tickers_to_universe (requests : list ticker_request).

Inductive exit : Type :=
| Ran (call : option action)
| Failed (e : exn)
| InvalidArgs (message : string).

Definition nargs_1 {D} (default : D) (given : option string) : attribute D :=
  match given with
  | None => Default default
  | Some value => Given [value]
  end.

(** [datetime.strptime(attr, "%Y-%m")]: a list is not a string. *)
Definition strptime_attribute (a : attribute string) : result datetime :=
  match a with
  | Default s => strptime s
  | Given _ => Raise TypeError
  end.

Definition add_ticker (args : namespace) : action :=
  add_tickers_to_universe
    ((fun ticker =>
        {| ticker := ticker; start_date := startdate args;
           end_date := enddate args; months_hist := monthhist args |})
       <$> tickers args).

Definition remove_tickers (args : namespace) : action :=
  remove_tickers_from_universe (tickers args).

Definition add_all_tickers (args : namespace) : action :=
  import_all_tickers args.

Definition main (cl : command_line) : exit :=
  match strptime_attribute (nargs_1 default_startdate (cl_startdate cl)) with
  | Raise e => Failed e
  | Ok startdate =>
      match strptime_attribute (nargs_1 default_enddate (cl_enddate cl)) with
      | Raise e => Failed e
      | Ok enddate =>
          let args :=
            {| tickers := cl_tickers cl; startdate := startdate;
               enddate := enddate;
               monthhist := nargs_1 DEFAULT_MONTHS_HIST (cl_monthhist cl);
               remove := cl_remove cl; add_all := cl_add_all cl;
               refresh := cl_refresh cl |} in
          if remove args then
            if add_all args then
              InvalidArgs "Can't --remove and --add_all at the same time. Remove explicit tickers via CLI"
            else Ran (Some (remove_tickers args))
          else if refresh args then Ran None
          else if add_all args then Ran (Some (add_all_tickers args))
          else Ran (Some (add_ticker args))
      end
  end.

End cli.
End Main.

(** * Vocabulary of the statements *)

Section chain.
Import PolygonPaginator.
Context {timestamp : Type}.
Variable POLYGON_API_KEY : pyval.
Variable timestamp_to_datetime : timestamp -> Z.

(** After a response that continues, [query_all] issues a further request:
    a 429 is retried, a 200 page with a cursor is followed. *)
Definition continues (r : response timestamp) : bool :=
  (status r =? 429)%Z || ((status r =? 200)%Z && truthy (next_url (json r))).

(** A status that [raise_for_status] raises for, 429 (retried) apart. *)
Definition fatal (r : response timestamp) : bool :=
  (400 <=? status r)%Z && negb (status r =? 429)%Z.

(** The responses a run consumes: all up to the first that does not
    continue, that one included. *)
Fixpoint consumed (upstream : list (response timestamp))
  : list (response timestamp) :=
  match upstream with
  | [] => []
  | r :: upstream => r :: (if continues r then consumed upstream else [])
  end.

(** The pages of the 200 responses, in order. *)
Definition pages_of (rs : list (response timestamp)) : list page :=
  json <$> filter (fun r => status r = 200%Z) rs.

(** The requests of a trace, in order. *)
Definition requests (t : list event) : list (pyval * jobject) :=
  omap (fun e => match e with Get url params => Some (url, params) | _ => None end) t.

(** The state of [self] once the response [r] has been handled, before any
    further call: the counter moves for every response, the log and the
    pages only for a 200. *)
Definition received (r : response timestamp) (self : paginator timestamp)
  : paginator timestamp :=
  let self := set_query_count self (query_count self + 1) in
  if (status r =? 200)%Z then
    set_results
      (set_query_time_log self
         (query_time_log self ++
            [{| log_request_id := request_id (json r);
                query_timestamp := clock r |}]))
      (results self ++ [json r])
  else self.

(** The case analysis every fact about a run goes through: how the first
    response is classified. *)
Inductive response_class (r : response timestamp) : Prop :=
| class_page_next : (status r =? 200)%Z = true ->
    truthy (next_url (json r)) = true -> continues r = true -> response_class r
| class_page_last : (status r =? 200)%Z = true ->
    truthy (next_url (json r)) = false -> continues r = false -> response_class r
| class_throttled : (status r =? 200)%Z = false -> (status r =? 429)%Z = true ->
    continues r = true -> response_class r
| class_other : (status r =? 200)%Z = false -> (status r =? 429)%Z = false ->
    continues r = false -> response_class r.

(** How a run over [upstream] ends. *)
Fixpoint chain_outcome (upstream : list (response timestamp)) : outcome :=
  match upstream with
  | [] => Awaiting
  | r :: upstream =>
      if continues r then chain_outcome upstream
      else if (status r =? 200)%Z then Returned
      else raise_for_status (status r)
  end.

(** [query_all] from the point where the request for [url] with the
    parameters [payload] has been issued (line 56 on). *)
Definition await_response (upstream : list (response timestamp)) (url : pyval)
    (payload : jobject) (self : paginator timestamp)
  : outcome * paginator timestamp * list event :=
  match upstream with
  | [] => (Awaiting, self, [])
  | r :: upstream =>
      prepend [LogStatus (status r)]
        (if (status r =? 200)%Z then
           if truthy (next_url (json r)) then
             query_all POLYGON_API_KEY timestamp_to_datetime upstream
               (next_url (json r)) [] false (received r self)
           else (Returned, received r self, [])
         else if (status r =? 429)%Z then
           query_all POLYGON_API_KEY timestamp_to_datetime upstream url payload
             true (received r self)
         else (raise_for_status (status r), received r self, []))
  end.

End chain.

(** The upstream records of a list of pages, in the order [clean_data]
    visits them. *)
Definition page_records (pages : list page) : list jobject :=
  pages ≫= (fun p => default [] (page_results p)).

Definition has_results (p : page) : Prop := is_Some (page_results p).

(** [[f(x) for x in l]] with an [f] that may raise. *)
Fixpoint try_map {A B : Type} (f : A -> result B) (l : list A) : result (list B) :=
  match l with
  | [] => Ok []
  | x :: l =>
      match f x with
      | Raise e => Raise e
      | Ok y =>
          match try_map f l with
          | Raise e => Raise e
          | Ok ys => Ok (y :: ys)
          end
      end
  end.

(** [v.get("option_ticker")], the natural key of a normalized contract. *)
Definition option_ticker (v : jobject) : pyval := dict_get v "option_ticker".

Definition has_option_ticker (v : jobject) : Prop :=
  is_Some (dict_lookup v "option_ticker").

(** The dictionary [{v["option_ticker"]: v for v in l}] extending [d], for
    records that all have the key. *)
Definition index_by_ticker (d : pydict pyval jobject) (l : list jobject)
  : pydict pyval jobject :=
  foldl (fun d v => dict_set d (option_ticker v) v) d l.

(** One record per key, each key at its first position with its last
    record. *)
Definition dedup (l : list jobject) : list jobject :=
  dict_values (index_by_ticker [] l).

(** [clean_results] once the normalized records [ts] have been appended and
    deduplicated one by one. *)
Definition absorb (clean_results ts : list jobject) : list jobject :=
  match ts with
  | [] => clean_results
  | _ => dedup (clean_results ++ ts)
  end.

(** The data kinds and the fields of their normalized records. *)
Inductive data_kind : Type :=
| TickerMetadata
| PriceBar
| OptionContract.

Definition canonical_fields (k : data_kind) : list string :=
  match k with
  | TickerMetadata => StockMetaData.selected_keys
  | PriceBar => HistoricalStockPrices.key_mapping.*2 ++ ["ticker_id"]
  | OptionContract => OptionsContracts.key_mapping.*2 ++ ["underlying_ticker_id"]
  end.

(** [r] has the shape of a normalized record of kind [k]. *)
Definition canonical (k : data_kind) (r : jobject) : Prop :=
  dict_keys r = canonical_fields k.

(** ** Vocabulary of the further properties *)

(** No request of the trace [t] is the fifth since the last sleep, [n]
    requests having been made since then when [t] starts. *)
Fixpoint within_quota (n : Z) (t : list PolygonPaginator.event) : bool :=
  match t with
  | [] => true
  | PolygonPaginator.Sleep _ :: t => within_quota 0 t
  | PolygonPaginator.Get _ _ :: t =>
      (n <? PolygonPaginator.MAX_QUERY_PER_MINUTE)%Z && within_quota (n + 1) t
  | _ :: t => within_quota n t
  end.

(** The parameters an event shows, logged or sent, hold the credential. *)
Definition carries_key (key : pyval) (e : PolygonPaginator.event) : Prop :=
  match e with
  | PolygonPaginator.LogInfo _ payload _ | PolygonPaginator.Get _ payload =>
      dict_lookup payload "apiKey" = Some key
  | _ => True
  end.

(** Every request of the trace [t] comes directly after a log line that
    shows the URL and the parameters it is sent with, the credential among
    them. *)
Fixpoint sent_as_logged (key : pyval) (t : list PolygonPaginator.event) : Prop :=
  match t with
  | [] => True
  | PolygonPaginator.LogInfo url payload _ :: PolygonPaginator.Get url' params :: t =>
      url' = url /\ params = payload /\
      dict_lookup params "apiKey" = Some key /\ sent_as_logged key t
  | PolygonPaginator.Get _ _ :: _ => False
  | _ :: t => sent_as_logged key t
  end.

(** A parameter the HTTP client refuses: a [bool] or [None]. *)
Definition refused (p : param) : Prop :=
  match p with
  | ParamBool _ | Param PNone => True
  | Param _ => False
  end.

#[global] Instance refused_dec (p : param) : Decision (refused p).
Proof. destruct p as [b|[| |]]; simpl; apply _. Defined.

(** The values of a list in the order of their first occurrences, each
    once. *)
Definition first_occurrences {A} `{EqDecision A} (l : list A) : list A :=
  reverse (remove_dups (reverse l)).

(** The entry the loop of [_determine_base_dates] appends for a year and a
    month. *)
Definition year_month (year month : Z) : string :=
  if decide (1 < String.length (pretty month))
  then pretty year +:+ "-" +:+ pretty month
  else pretty year +:+ "-0" +:+ pretty month.

(** * Sample inputs

    Clock readings are counts of microseconds and
    [utils.timestamp_to_datetime] keeps them. *)
Module Sample.
Import PolygonPaginator.

Definition api_key : pyval := PStr "key".
Definition to_datetime (t : Z) : Z := t.
Definition to_datetime_msec (v : pyval) : result pyval := Ok v.
Definition url : pyval := PStr "https://api.polygon.io/v3/reference/options/contracts".

Definition contract (ticker : string) (strike : Z) : jobject :=
  [("ticker", PStr ticker); ("strike_price", PInt strike); ("cfi", PStr "OCASPS")].

(** A first page with a cursor, the page the cursor leads to (it lists
    ["O:A"] again, with another strike), and a page without records. *)
Definition page_1 : page :=
  {| request_id := PStr "r1"; next_url := PStr "https://api.polygon.io/next";
     page_results := Some [contract "O:A" 100; contract "O:B" 105] |}.
Definition page_2 : page :=
  {| request_id := PStr "r2"; next_url := PNone;
     page_results := Some [contract "O:A" 110] |}.
Definition no_page : page :=
  {| request_id := PNone; next_url := PNone; page_results := None |}.
Definition empty_page : page :=
  {| request_id := PStr "r0"; next_url := PNone; page_results := Some [] |}.

Definition reply (status : Z) (body : page) (clock : Z) : response Z :=
  {| status := status; json := body; clock := clock |}.

(** A chain of two pages with a throttled request in between. *)
Definition two_pages : list (response Z) :=
  [reply 200 page_1 1000000; reply 429 no_page 2000000; reply 200 page_2 3000000].

(** A chain that fails on its second request. *)
Definition failing : list (response Z) :=
  [reply 200 page_1 1000000; reply 500 no_page 2000000].

Definition fresh : paginator Z := __init__.

(** Four requests made within 2.5 seconds. *)
Definition saturated : paginator Z :=
  {| query_count := 4;
     query_time_log :=
       [{| log_request_id := PStr "a"; query_timestamp := 0%Z |};
        {| log_request_id := PStr "b"; query_timestamp := 1200000%Z |};
        {| log_request_id := PStr "c"; query_timestamp := 2500000%Z |}];
     results := []; clean_results := []; clean_data_generator := EmptyIter |}.

(** The state once the two pages have been collected. *)
Definition collected : paginator Z := set_results fresh [page_1; page_2].

(** 6667 normalized contracts, of 9 fields each. *)
Definition many_contracts : paginator Z :=
  set_clean_results fresh
    (replicate (Z.to_nat 6667)
       (OptionsContracts.normalize (PInt 7) (contract "O:A" 100))).

(** A state whose only page has no record, and one whose second page has no
    results array. *)
Definition no_records : paginator Z := set_results fresh [empty_page].
Definition broken : paginator Z := set_results fresh [page_1; no_page; page_2].

(** [main.py -s 2023-01 SPY], with dates that parse to themselves. *)
Definition parse_date (s : string) : result string := Ok s.
Definition with_startdate : Main.command_line :=
  {| Main.cl_tickers := ["SPY"]; Main.cl_startdate := Some "2023-01";
     Main.cl_enddate := None; Main.cl_monthhist := None;
     Main.cl_remove := false; Main.cl_add_all := false;
     Main.cl_refresh := false |}.

End Sample.

(** * The pagination engine and the rate governor *)

Section engine_facts.
Import PolygonPaginator.
Context {timestamp : Type}.
Variable KEY : pyval.
Variable t2d : timestamp -> Z.

Local Abbreviation query_all := (PolygonPaginator.query_all KEY t2d).
Local Abbreviation await_response := (await_response KEY t2d).
Local Abbreviation paginator := (paginator timestamp).
Local Abbreviation response := (response timestamp).

Lemma dict_set_idem (d : jobject) k v : dict_set (dict_set d k v) k v = dict_set d k v.
Proof.
  induction d as [|[k' v'] d IH]; simpl.
  - by rewrite decide_True.
  - destruct (decide (k' = k)) as [->|Hne]; simpl.
    + by rewrite decide_True.
    + rewrite decide_False by done. by rewrite IH.
Qed.

(** One unfolding of [query_all]: the governor, the request, the rest. *)
Lemma query_all_unfold upstream url payload overload (self : paginator) :
  query_all upstream url payload overload self =
    let payload := dict_set payload "apiKey" KEY in
    prepend ((throttle t2d self overload).2
               ++ [LogInfo url payload overload; Get url payload])
      (await_response upstream url payload (throttle t2d self overload).1).
Proof.
  destruct upstream as [|r upstream]; simpl;
    destruct (throttle t2d self overload) as [g slept]; simpl; [done|].
  unfold received.
  destruct (status r =? 200)%Z; [|done].
  by destruct (truthy (next_url (json r))).
Qed.

Lemma prepend_fst evs (x : outcome * paginator * list event) :
  (prepend evs x).1 = x.1.
Proof. by destruct x as [[??]?]. Qed.

Lemma prepend_snd evs (x : outcome * paginator * list event) :
  (prepend evs x).2 = evs ++ x.2.
Proof. by destruct x as [[??]?]. Qed.

Lemma throttle_results (self : paginator) overload :
  results (throttle t2d self overload).1 = results self.
Proof. unfold throttle. by case_match. Qed.

Lemma received_results r (self : paginator) :
  results (received r self) =
    results self ++ (if (status r =? 200)%Z then [json r] else []).
Proof. unfold received. case_match; simpl; [done|by rewrite app_nil_r]. Qed.

Lemma received_query_count r (self : paginator) :
  query_count (received r self) = (query_count self + 1)%Z.
Proof. unfold received. by case_match. Qed.

Lemma received_query_time_log r (self : paginator) :
  query_time_log (received r self) =
    query_time_log self ++
      (if (status r =? 200)%Z
       then [{| log_request_id := request_id (json r); query_timestamp := clock r |}]
       else []).
Proof. unfold received. case_match; simpl; [done|by rewrite app_nil_r]. Qed.

Lemma pages_of_cons (r : response) rs :
  pages_of (r :: rs) =
    (if (status r =? 200)%Z then [json r] else []) ++ pages_of rs.
Proof.
  unfold pages_of. destruct (Z.eqb_spec (status r) 200).
  - by rewrite filter_cons_True.
  - by rewrite filter_cons_False.
Qed.

Lemma classify (r : response) : response_class r.
Proof.
  destruct (status r =? 200)%Z eqn:H2; destruct (status r =? 429)%Z eqn:H4.
  - apply Z.eqb_eq in H2, H4. lia.
  - destruct (truthy (next_url (json r))) eqn:Hn;
      [apply class_page_next | apply class_page_last]; try done;
      unfold continues; by rewrite H2, H4, Hn.
  - apply class_throttled; try done. unfold continues. by rewrite H4.
  - apply class_other; try done. unfold continues. by rewrite H2, H4.
Qed.

Ltac classify_response r :=
  destruct (classify r) as
    [H200 Hnext Hcont|H200 Hnext Hcont|H200 H429 Hcont|H200 H429 Hcont];
  rewrite ?H200, ?H429, ?Hnext, ?Hcont; cbv iota.

(** The pages collected are those of the 200 responses consumed. *)
Lemma query_all_results upstream : forall url payload overload (self : paginator),
  results (query_all upstream url payload overload self).1.2 =
    results self ++ pages_of (consumed upstream).
Proof.
  induction upstream as [|r upstream IH]; intros url payload overload self;
    rewrite query_all_unfold; cbv zeta; rewrite prepend_fst.
  - simpl. by rewrite throttle_results, app_nil_r.
  - cbn [await_response consumed]. rewrite prepend_fst, pages_of_cons.
    classify_response r; cbn [fst snd];
      rewrite ?IH, ?received_results, ?throttle_results, ?H200;
      rewrite <- ?app_assoc; try done;
      unfold pages_of; simpl; by rewrite ?app_nil_r.
Qed.

(** How the run ends depends on the responses alone. *)
Lemma query_all_outcome upstream : forall url payload overload (self : paginator),
  (query_all upstream url payload overload self).1.1 = chain_outcome upstream.
Proof.
  induction upstream as [|r upstream IH]; intros url payload overload self;
    rewrite query_all_unfold; cbv zeta; rewrite prepend_fst; [done|].
  cbn [await_response chain_outcome]. rewrite prepend_fst.
  classify_response r; by rewrite ?IH.
Qed.

Lemma chain_outcome_awaiting (upstream : list response) :
  chain_outcome upstream = Awaiting <-> forallb continues upstream = true.
Proof.
  induction upstream as [|r upstream IH]; simpl; [done|].
  destruct (continues r); simpl; [done|].
  unfold raise_for_status. split; [|done].
  by repeat case_match.
Qed.

Lemma chain_outcome_terminal (upstream : list response) :
  Exists (fun r => continues r = false) upstream ->
  chain_outcome upstream <> Awaiting.
Proof.
  intros Hex Haw. apply chain_outcome_awaiting in Haw.
  apply Exists_exists in Hex as (r & Hin & Hr).
  rewrite forallb_forall in Haw. apply list_elem_of_In in Hin.
  specialize (Haw r Hin). congruence.
Qed.

Lemma fatal_not_continues (r : response) : fatal r = true -> continues r = false.
Proof.
  unfold fatal, continues. intros [H4 Hne]%andb_prop.
  apply Z.leb_le in H4. apply negb_true_iff in Hne. rewrite Hne. simpl.
  destruct (Z.eqb_spec (status r) 200); [lia|done].
Qed.

Lemma chain_outcome_raised (upstream : list response) e :
  chain_outcome upstream = Raised e <->
  exists pre r rest,
    upstream = pre ++ r :: rest /\ forallb continues pre = true /\
    fatal r = true /\ e = ClientResponseError (status r).
Proof.
  split.
  - induction upstream as [|r upstream IH]; simpl; [done|].
    destruct (continues r) eqn:Hc.
    + intros (pre & r' & rest & -> & Hpre & Hf & ->)%IH.
      exists (r :: pre), r', rest. simpl. by rewrite Hc, Hpre.
    + destruct (Z.eqb_spec (status r) 200) as [|H2]; [done|].
      unfold raise_for_status. destruct (Z.leb_spec 400 (status r)) as [H4|]; [|done].
      intros [= <-]. exists [], r, upstream. repeat split; try done.
      unfold fatal, continues in *. apply orb_false_iff in Hc as [-> _].
      simpl. rewrite andb_true_r. by apply Z.leb_le.
  - intros (pre & r & rest & -> & Hpre & Hf & ->).
    induction pre as [|a pre IH]; simpl in *.
    + rewrite (fatal_not_continues r Hf).
      unfold fatal in Hf. apply andb_prop in Hf as [H4 Hne].
      pose proof H4 as H4'. apply Z.leb_le in H4'.
      destruct (Z.eqb_spec (status r) 200); [lia|].
      unfold raise_for_status. by rewrite H4.
    + apply andb_prop in Hpre as [-> Hpre]. by apply IH.
Qed.

Lemma requests_throttle (self : paginator) overload :
  requests (throttle t2d self overload).2 = [].
Proof. unfold throttle. by case_match. Qed.

(** One request per response consumed, and one more while awaiting. *)
Lemma query_all_requests upstream : forall url payload overload (self : paginator),
  length (requests (query_all upstream url payload overload self).2) =
    (length (consumed upstream) +
       match chain_outcome upstream with Awaiting => 1 | _ => 0 end)%nat.
Proof.
  induction upstream as [|r upstream IH]; intros url payload overload self;
    rewrite query_all_unfold; cbv zeta; rewrite prepend_snd;
    unfold requests at 1; rewrite !omap_app; fold requests;
    rewrite requests_throttle, !length_app; simpl; [done|].
  rewrite prepend_snd. simpl. fold (requests).
  classify_response r; rewrite ?IH; simpl; try lia.
  unfold raise_for_status. by destruct (400 <=? status r)%Z.
Qed.

Lemma prepend_eq evs (x : outcome * paginator * list event) o s t :
  prepend evs x = (o, s, t) <-> exists t', x = (o, s, t') /\ t = evs ++ t'.
Proof.
  destruct x as [[o' s'] t']. simpl. split.
  - intros [= -> -> <-]. by exists t'.
  - by intros (t'' & [= -> -> ->] & ->).
Qed.

Lemma prepend_prepend evs evs' (x : outcome * paginator * list event) :
  prepend evs (prepend evs' x) = prepend (evs ++ evs') x.
Proof. destruct x as [[??]?]. simpl. by rewrite app_assoc. Qed.

(** A run that is awaiting a response resumes with whatever arrives next:
    the request in flight is the last event of its trace. *)
Lemma query_all_app pre : forall url payload overload (self s : paginator) t,
  query_all pre url payload overload self = (Awaiting, s, t) ->
  exists url' payload',
    last t = Some (Get url' payload') /\
    dict_set payload' "apiKey" KEY = payload' /\
    forall rest,
      query_all (pre ++ rest) url payload overload self =
        prepend t (await_response rest url' payload' s).
Proof.
  induction pre as [|r pre IH]; intros url payload overload self s t;
    rewrite query_all_unfold; cbv zeta.
  - cbn [await_response]. intros (t' & [= <- <-] & ->)%prepend_eq.
    exists url, (dict_set payload "apiKey" KEY). split_and!.
    + by rewrite app_nil_r, last_app.
    + apply dict_set_idem.
    + intros rest. simpl. rewrite query_all_unfold. cbv zeta.
      by rewrite app_nil_r.
  - cbn [await_response]. rewrite prepend_prepend.
    set (evs := _ ++ [LogStatus _]).
    assert (forall rest,
      query_all ((r :: pre) ++ rest) url payload overload self =
        prepend evs
          (if (status r =? 200)%Z then
             if truthy (next_url (json r)) then
               query_all (pre ++ rest) (next_url (json r)) [] false
                 (received r (throttle t2d self overload).1)
             else (Returned, received r (throttle t2d self overload).1, [])
           else if (status r =? 429)%Z then
             query_all (pre ++ rest) url (dict_set payload "apiKey" KEY) true
               (received r (throttle t2d self overload).1)
           else (raise_for_status (status r),
                 received r (throttle t2d self overload).1, []))) as Hrest.
    { intros rest. rewrite query_all_unfold. cbv zeta. cbn [app await_response].
      by rewrite prepend_prepend. }
    intros (t' & Hrun & ->)%prepend_eq.
    destruct (classify r) as
      [H200 Hnext Hcont|H200 Hnext Hcont|H200 H429 Hcont|H200 H429 Hcont];
      rewrite ?H200, ?H429, ?Hnext in Hrun.
    + apply IH in Hrun as (url' & p' & Hlast & Hidem & Hres).
      exists url', p'. split_and!; [by rewrite last_app, Hlast|done|].
      intros rest. by rewrite Hrest, H200, Hnext, Hres, prepend_prepend.
    + done.
    + apply IH in Hrun as (url' & p' & Hlast & Hidem & Hres).
      exists url', p'. split_and!; [by rewrite last_app, Hlast|done|].
      intros rest. by rewrite Hrest, H200, H429, Hres, prepend_prepend.
    + unfold raise_for_status in Hrun. by destruct (400 <=? status r)%Z.
Qed.

Lemma fatal_spec (r : response) :
  fatal r = true <-> (400 <= status r)%Z /\ status r <> 429%Z.
Proof.
  unfold fatal. rewrite andb_true_iff, negb_true_iff, Z.leb_le, Z.eqb_neq. done.
Qed.

(** [ceil_div a b] is the least integer [q] with [a <= q * b]. *)
Lemma ceil_div_spec a b :
  (0 < b)%Z -> ((ceil_div a b - 1) * b < a <= ceil_div a b * b)%Z.
Proof.
  intros Hb. unfold ceil_div.
  pose proof (Z.div_mod (- a) b ltac:(lia)).
  pose proof (Z.mod_pos_bound (- a) b Hb). nia.
Qed.

Lemma _api_sleep_time_short (self : paginator) :
  length (query_time_log self) < 3 -> _api_sleep_time t2d self = 60%Z.
Proof. intros Hlen. unfold _api_sleep_time. rewrite decide_False by lia. done. Qed.

Lemma _api_sleep_time_long (self : paginator) oldest newest :
  3 <= length (query_time_log self) ->
  head (query_time_log self) = Some oldest ->
  last (query_time_log self) = Some newest ->
  _api_sleep_time t2d self =
    Z.min 60 (ceil_div (t2d (query_timestamp newest) - t2d (query_timestamp oldest))
                1000000).
Proof.
  intros Hlen Hhd Hlast. unfold _api_sleep_time.
  rewrite decide_True by lia. rewrite Hhd, Hlast.
  destruct (Z.ltb_spec (ceil_div (t2d (query_timestamp newest)
                                  - t2d (query_timestamp oldest)) 1000000) 60); lia.
Qed.

Lemma fetch_propagates
    (query_data : list response -> paginator -> outcome * paginator * list event)
    (clean_data : paginator -> paginator * option exn) upstream self e s t :
  query_data upstream self = (Raised e, s, t) ->
  fetch query_data clean_data upstream self = (Raised e, s, t).
Proof. intros Hq. unfold fetch. by rewrite Hq. Qed.

(** C1. Over any finite sequence of upstream responses that holds a response
    ending the chain (a 200 page without cursor, or a status that is neither
    200 nor 429), [query_all] terminates: it is not left awaiting a response.
    The pages it has added to [results] are exactly those of the 200
    responses of the chain, one entry each, in the order of the requests,
    and it has issued exactly one request per response consumed. *)
Theorem query_all_terminates upstream url payload overload (self : paginator) :
  Exists (fun r => continues r = false) upstream ->
  let run := query_all upstream url payload overload self in
  run.1.1 <> Awaiting /\
  results run.1.2 = results self ++ pages_of (consumed upstream) /\
  length (requests run.2) = length (consumed upstream).
Proof.
  intros Hex run. subst run.
  rewrite query_all_outcome, query_all_results, query_all_requests.
  pose proof (chain_outcome_terminal upstream Hex) as Hne.
  split_and!; [done|done|].
  destruct (chain_outcome upstream); [lia|lia|done].
Qed.

(** C2. On every invocation of [query_all]: when [query_count] has reached
    [MAX_QUERY_PER_MINUTE] (4) or [overload] is set, the invocation sleeps
    before it issues its request, for 60 seconds when the log holds fewer
    than 3 entries and for the minimum of 60 and the ceiling of the seconds
    between the oldest and the newest log entry otherwise, and the rest of
    the invocation runs with [query_count] reset to 0 and an empty log;
    when [query_count] is below 4 and [overload] is not set, the request is
    issued without any sleep and the state is passed on unchanged. *)
Theorem query_all_throttle upstream url payload overload (self : paginator) :
  let payload' := dict_set payload "apiKey" KEY in
  ((MAX_QUERY_PER_MINUTE <= query_count self)%Z \/ overload = true ->
   exists seconds,
     query_all upstream url payload overload self =
       prepend [Sleep seconds; LogInfo url payload' overload; Get url payload']
         (await_response upstream url payload'
            (set_query_time_log (set_query_count self 0) [])) /\
     (length (query_time_log self) < 3 -> seconds = 60%Z) /\
     (forall oldest newest,
        3 <= length (query_time_log self) ->
        head (query_time_log self) = Some oldest ->
        last (query_time_log self) = Some newest ->
        seconds =
          Z.min 60 (ceil_div (t2d (query_timestamp newest)
                              - t2d (query_timestamp oldest)) 1000000))) /\
  ((query_count self < MAX_QUERY_PER_MINUTE)%Z -> overload = false ->
   query_all upstream url payload overload self =
     prepend [LogInfo url payload' overload; Get url payload']
       (await_response upstream url payload' self)).
Proof.
  intros payload'. split.
  - intros Hthr. exists (_api_sleep_time t2d self).
    split_and!; [|apply _api_sleep_time_short|apply _api_sleep_time_long].
    rewrite query_all_unfold. cbv zeta. unfold throttle.
    assert ((MAX_QUERY_PER_MINUTE <=? query_count self)%Z || overload = true) as ->; [|done].
    destruct Hthr as [Hq| ->]; [|apply orb_true_r].
    apply Z.leb_le in Hq. by rewrite Hq.
  - intros Hq ->. rewrite query_all_unfold. cbv zeta. unfold throttle.
    apply Z.leb_gt in Hq. by rewrite Hq.
Qed.

(** C3 (amended). [query_all] raises exactly when the chain reaches a
    response whose status is 400 or more and not 429, and the error then
    carries that status. A 429 is answered by a new request for the same URL
    with the same parameters, made with [overload] set and so after a sleep,
    and a raised error leaves [fetch] as it left [query_data]. *)
Theorem query_all_raises_iff upstream url payload overload (self : paginator) :
  (forall e,
     (query_all upstream url payload overload self).1.1 = Raised e <->
     exists pre r rest,
       upstream = pre ++ r :: rest /\ forallb continues pre = true /\
       ((400 <= status r)%Z /\ status r <> 429%Z) /\
       e = ClientResponseError (status r)) /\
  (forall pre r rest,
     upstream = pre ++ r :: rest -> forallb continues pre = true ->
     status r = 429%Z ->
     exists s t url' payload' seconds t',
       query_all pre url payload overload self = (Awaiting, s, t) /\
       last t = Some (Get url' payload') /\
       (query_all upstream url payload overload self).2 =
         t ++ LogStatus 429 :: Sleep seconds :: LogInfo url' payload' true
           :: Get url' payload' :: t') /\
  (forall clean_data e s t,
     query_all upstream url payload overload self = (Raised e, s, t) ->
     fetch (fun upstream self => query_all upstream url payload overload self)
       clean_data upstream self = (Raised e, s, t)).
Proof.
  split_and!.
  - intros e. rewrite query_all_outcome, chain_outcome_raised.
    by setoid_rewrite fatal_spec.
  - intros pre r rest -> Hpre H429.
    destruct (query_all pre url payload overload self) as [[o s] t] eqn:Hrun.
    assert (o = Awaiting) as ->.
    { apply chain_outcome_awaiting in Hpre.
      rewrite <- (query_all_outcome pre url payload overload self), Hrun in Hpre.
      done. }
    destruct (query_all_app _ _ _ _ _ _ _ Hrun) as (url' & p' & Hlast & Hidem & Hres).
    rewrite Hres. cbn [await_response]. rewrite H429. cbv iota.
    change (429 =? 200)%Z with false. change (429 =? 429)%Z with true. cbv iota.
    rewrite query_all_unfold. cbv zeta. rewrite Hidem.
    unfold throttle. rewrite orb_true_r. cbn [fst snd].
    rewrite !prepend_snd.
    eexists s, t, url', p', _, _. split_and!; [done|done|]. simpl. done.
  - intros clean_data e s t Hrun. by apply fetch_propagates.
Qed.

(** C10. Take a run that has consumed [pre] and is awaiting the response
    to its request in flight, with state [s]. Whatever the status of the
    response [r] that arrives, it is handled in the state [received r s]:
    [query_count] is one more than in [s], and [results] and
    [query_time_log] are those of [s], extended by one entry exactly when the
    status is 200. In particular, when [r] is fatal the error is raised with
    [results] and [query_time_log] as in [s] and [query_count] one more. *)
Theorem query_all_frame pre r rest url payload overload (self s : paginator) t :
  query_all pre url payload overload self = (Awaiting, s, t) ->
  exists url' payload',
    last t = Some (Get url' payload') /\
    query_all (pre ++ r :: rest) url payload overload self =
      prepend (t ++ [LogStatus (status r)])
        (if (status r =? 200)%Z then
           if truthy (next_url (json r)) then
             query_all rest (next_url (json r)) [] false (received r s)
           else (Returned, received r s, [])
         else if (status r =? 429)%Z then
           query_all rest url' payload' true (received r s)
         else (raise_for_status (status r), received r s, [])) /\
    query_count (received r s) = (query_count s + 1)%Z /\
    results (received r s) =
      results s ++ (if (status r =? 200)%Z then [json r] else []) /\
    query_time_log (received r s) =
      query_time_log s ++
        (if (status r =? 200)%Z
         then [{| log_request_id := request_id (json r);
                  query_timestamp := clock r |}]
         else []) /\
    (fatal r = true ->
     query_all (pre ++ r :: rest) url payload overload self =
       (Raised (ClientResponseError (status r)),
        set_query_count s (query_count s + 1),
        t ++ [LogStatus (status r)])).
Proof.
  intros Hrun.
  destruct (query_all_app _ _ _ _ _ _ _ Hrun) as (url' & p' & Hlast & Hidem & Hres).
  exists url', p'.
  assert (query_all (pre ++ r :: rest) url payload overload self =
      prepend (t ++ [LogStatus (status r)])
        (if (status r =? 200)%Z then
           if truthy (next_url (json r)) then
             query_all rest (next_url (json r)) [] false (received r s)
           else (Returned, received r s, [])
         else if (status r =? 429)%Z then
           query_all rest url' p' true (received r s)
         else (raise_for_status (status r), received r s, []))) as Hstep.
  { rewrite Hres. cbn [await_response]. by rewrite prepend_prepend. }
  split_and!; [done|done|apply received_query_count|apply received_results
              |apply received_query_time_log|].
  intros Hf. rewrite Hstep. apply fatal_spec in Hf as [H4 Hne].
  destruct (Z.eqb_spec (status r) 200); [lia|].
  destruct (Z.eqb_spec (status r) 429); [lia|].
  unfold raise_for_status, received.
  destruct (Z.leb_spec 400 (status r)); [|lia].
  destruct (Z.eqb_spec (status r) 200); [lia|].
  simpl. by rewrite app_nil_r.
Qed.

End engine_facts.

(** * The batch sequencer *)

Section batch_facts.
Import PolygonPaginator.
Context {timestamp : Type}.

Local Abbreviation paginator := (paginator timestamp).

Lemma ceil_count (n step : nat) :
  0 < step ->
  n <= (n + step - 1) `div` step * step /\
  (0 < (n + step - 1) `div` step -> ((n + step - 1) `div` step - 1) * step < n).
Proof.
  intros Hstep.
  pose proof (Nat.div_mod_eq (n + step - 1) step).
  pose proof (Nat.mod_upper_bound (n + step - 1) step ltac:(lia)).
  nia.
Qed.

Lemma length_py_range stop step :
  length (py_range stop step) = (stop + step - 1) `div` step.
Proof. unfold py_range. by rewrite length_fmap, length_seq. Qed.

Lemma lookup_py_range stop step j :
  py_range stop step !! j =
    if decide (j < (stop + step - 1) `div` step) then Some (j * step) else None.
Proof.
  unfold py_range. rewrite list_lookup_fmap. case_decide.
  - by rewrite lookup_seq_lt.
  - by rewrite lookup_seq_ge by lia.
Qed.

Lemma slice_step {A} (l : list A) i step :
  slice l i (i + step) = take step (drop i l).
Proof. unfold slice. f_equal. lia. Qed.

Lemma concat_slices {A} (l : list A) step k :
  concat ((fun i => slice l i (i + step)) <$> ((fun j => j * step) <$> seq 0 k)) =
    take (k * step) l.
Proof.
  induction k as [|k IH]; [done|].
  rewrite seq_S, !fmap_app, concat_app, IH. simpl.
  rewrite app_nil_r, slice_step, take_take_drop. f_equal. lia.
Qed.

(** Slicing at every multiple of a positive step loses and repeats nothing. *)
Lemma concat_batches {A} (l : list A) step :
  0 < step ->
  concat ((fun i => slice l i (i + step)) <$> py_range (length l) step) = l.
Proof.
  intros Hstep. unfold py_range. rewrite concat_slices.
  apply take_ge. by apply ceil_count.
Qed.

Lemma round_div_pos b : (0 < b < 120000)%Z -> (0 < round_div 60000 b)%Z.
Proof.
  intros Hb. unfold round_div.
  pose proof (Z.div_mod 60000 b ltac:(lia)).
  pose proof (Z.mod_pos_bound 60000 b ltac:(lia)).
  pose proof (Z.div_pos 60000 b ltac:(lia) ltac:(lia)).
  destruct (Z.ltb_spec (2 * (60000 `mod` b)) b);
    [|destruct (Z.ltb_spec b (2 * (60000 `mod` b))); [|destruct (Z.even _)]]; nia.
Qed.

(** [round_div a b] is an integer nearest to [a / b]. *)
Lemma round_div_nearest a b :
  (0 < b)%Z -> (2 * Z.abs (round_div a b * b - a) <= b)%Z.
Proof.
  intros Hb. unfold round_div.
  pose proof (Z.div_mod a b ltac:(lia)).
  pose proof (Z.mod_pos_bound a b Hb).
  destruct (Z.ltb_spec (2 * (a `mod` b)) b);
    [|destruct (Z.ltb_spec b (2 * (a `mod` b))); [|destruct (Z.even _)]]; nia.
Qed.

(** With a positive batch size the generator ends normally, having yielded
    the slices at the multiples of the batch size. *)
Lemma make_clean_generator_batches (self : paginator) first :
  clean_results self !! 0 = Some first ->
  0 < length first ->
  0 < Z.to_nat (round_div 60000 (Z.of_nat (length first))) ->
  make_clean_generator self =
    ((fun i => slice (clean_results self) i
                 (i + Z.to_nat (round_div 60000 (Z.of_nat (length first)))))
       <$> py_range (length (clean_results self))
             (Z.to_nat (round_div 60000 (Z.of_nat (length first)))),
     None).
Proof.
  intros Hfirst Hlen Hpos. unfold make_clean_generator. rewrite Hfirst.
  destruct (Z.eqb_spec (Z.of_nat (length first)) 0) as [Hz|_]; [lia|].
  rewrite decide_False by lia. done.
Qed.

Lemma canonical_length k (r : jobject) :
  canonical k r -> length r = 9 \/ length r = 10.
Proof.
  unfold canonical, dict_keys. intros Hk.
  rewrite <- (length_fmap fst r), Hk. destruct k; simpl; lia.
Qed.

(** C5. For every non-empty [clean_results] holding normalized records of a
    data kind, the generator of [make_clean_generator] ends normally and the
    concatenation of the batches it yields, in the order of the yields, is
    [clean_results] itself: no record is lost, repeated or moved. *)
Theorem batches_cover (k : data_kind) (self : paginator) :
  clean_results self <> [] ->
  Forall (canonical k) (clean_results self) ->
  exists batches,
    make_clean_generator self = (batches, None) /\
    concat batches = clean_results self.
Proof.
  intros Hne Hcan.
  destruct (clean_results self) as [|first rest] eqn:Hcr; [done|].
  apply Forall_cons in Hcan as [Hfirst _]. apply canonical_length in Hfirst.
  assert (0 < Z.to_nat (round_div 60000 (Z.of_nat (length first)))) as Hpos.
  { destruct Hfirst as [-> | ->]; vm_compute; lia. }
  eexists. split.
  - apply (make_clean_generator_batches self first); [by rewrite Hcr|lia|done].
  - rewrite <- Hcr. by apply concat_batches.
Qed.

(** With an empty [clean_results] the generator yields nothing and its
    first advance raises [IndexError]. *)
Lemma make_clean_generator_empty (self : paginator) :
  clean_results self = [] ->
  make_clean_generator self = ([], Some IndexError).
Proof. intros Hcr. unfold make_clean_generator. by rewrite Hcr. Qed.

(** C6, as the code behaves. On an instance whose [clean_results] is empty
    the generator of [make_clean_generator] yields no batch and does not end
    normally: its first advance reads [self.clean_results[0]] (line 74) and
    raises [IndexError], also when it has been stored as
    [clean_data_generator]. What yields no batch and raises nothing is the
    empty iterator [__init__] installs. *)
Theorem generator_without_records (self : paginator) :
  clean_results self = [] ->
  make_clean_generator self = ([], Some IndexError) /\
  drain (set_clean_data_generator self CleanGenerator) = ([], Some IndexError) /\
  drain (set_clean_data_generator self EmptyIter) = ([], None).
Proof.
  intros Hcr. split_and!; [|unfold drain; cbn [clean_data_generator
    set_clean_data_generator]|done]; by apply make_clean_generator_empty.
Qed.

(** C7 (amended). The batch length is [round(60000 / record_size)], the
    integer nearest to the quotient (ties to even), where [record_size] is
    the number of fields of the first record. When the first record has
    between 1 and 119999 fields (a normalized record has 9 or 10) the batch
    length is positive and the generator yields the consecutive slices of
    that length over [clean_results]: every batch but the last has exactly
    that length and the last one is not empty and not longer. *)
Theorem batch_length_rounds (self : paginator) first :
  clean_results self !! 0 = Some first ->
  (0 < Z.of_nat (length first) < 120000)%Z ->
  let batch_size := Z.to_nat (round_div 60000 (Z.of_nat (length first))) in
  0 < batch_size /\
  exists batches,
    make_clean_generator self = (batches, None) /\
    length batches = (length (clean_results self) + batch_size - 1) `div` batch_size /\
    forall j batch,
      batches !! j = Some batch ->
      batch = take batch_size (drop (j * batch_size) (clean_results self)) /\
      0 < length batch <= batch_size /\
      (S j < length batches -> length batch = batch_size).
Proof.
  intros Hfirst Hlen batch_size.
  assert (0 < batch_size) as Hpos.
  { pose proof (round_div_pos (Z.of_nat (length first)) ltac:(lia)).
    unfold batch_size. lia. }
  split; [done|].
  eexists. split; [by apply (make_clean_generator_batches self first); [|lia|]|].
  fold batch_size. rewrite length_fmap, length_py_range. split; [done|].
  intros j batch. rewrite list_lookup_fmap, lookup_py_range.
  case_decide as Hj; [|done]. simpl. intros [= <-].
  rewrite slice_step. split; [done|].
  rewrite length_take, length_drop.
  pose proof (ceil_count (length (clean_results self)) batch_size Hpos) as [Hup Hlow].
  specialize (Hlow ltac:(lia)).
  split; [nia|]. intros HSj. nia.
Qed.

End batch_facts.

(** * Loops and dictionaries *)

Section loops.
Context {A S : Type}.

(** A loop whose body never raises on the states it meets is a fold. *)
Lemma for_each_foldl (I : S -> Prop) (body : A -> S -> S * option exn)
    (f : S -> A -> S) (l : list A) : forall s,
  I s ->
  (forall x s, x ∈ l -> I s -> body x s = (f s x, None) /\ I (f s x)) ->
  for_each body l s = (foldl f s l, None) /\ I (foldl f s l).
Proof.
  induction l as [|x l IH]; intros s Hs Hbody; simpl; [done|].
  destruct (Hbody x s) as [-> Hs']; [left|done|].
  apply IH; [done|]. intros y s' Hy. apply Hbody. by right.
Qed.

(** What every turn of the body preserves holds when the loop ends, however
    it ends. *)
Lemma for_each_inv (I : S -> Prop) (body : A -> S -> S * option exn) (l : list A) :
  forall s,
  I s -> (forall x s, x ∈ l -> I s -> I (body x s).1) -> I (for_each body l s).1.
Proof.
  induction l as [|x l IH]; intros s Hs Hbody; simpl; [done|].
  pose proof (Hbody x s ltac:(left) Hs) as Hx.
  destruct (body x s) as [s' [e|]]; [done|].
  apply IH; [done|]. intros y s'' Hy. apply Hbody. by right.
Qed.

Lemma foldl_bind {B} (f : S -> B -> S) (g : A -> list B) (l : list A) : forall s,
  foldl (fun s x => foldl f s (g x)) s l = foldl f s (l ≫= g).
Proof.
  induction l as [|x l IH]; intros s; [done|].
  rewrite bind_cons, foldl_app. simpl. apply IH.
Qed.

End loops.

Section dict_facts.
Context {K V : Type} `{EqDecision K}.
Implicit Types (d : pydict K V) (k : K) (v : V).

Lemma dict_lookup_set d k v k' :
  dict_lookup (dict_set d k v) k' =
    if decide (k = k') then Some v else dict_lookup d k'.
Proof.
  induction d as [|[k0 v0] d IH]; simpl.
  - by destruct (decide (k = k')).
  - destruct (decide (k0 = k)) as [->|Hne]; simpl.
    + by destruct (decide (k = k')).
    + rewrite IH. destruct (decide (k0 = k')) as [->|]; [|done].
      by rewrite decide_False.
Qed.

Lemma dict_lookup_None d k : dict_lookup d k = None <-> k ∉ dict_keys d.
Proof.
  unfold dict_keys. induction d as [|[k0 v0] d IH]; cbn [dict_lookup].
  - split; [intros _; apply not_elem_of_nil|done].
  - rewrite fmap_cons, not_elem_of_cons. cbn [fst].
    destruct (decide (k0 = k)) as [->|Hne].
    + split; [done|]. by intros [? _].
    + rewrite IH. split; [by intros ?; split|by intros [_ ?]].
Qed.

Lemma dict_keys_set d k v :
  dict_keys (dict_set d k v) =
    if decide (k ∈ dict_keys d) then dict_keys d else dict_keys d ++ [k].
Proof.
  unfold dict_keys. induction d as [|[k0 v0] d IH]; cbn [dict_set].
  - rewrite decide_False; [done|apply not_elem_of_nil].
  - rewrite fmap_cons. cbn [fst].
    destruct (decide (k0 = k)) as [->|Hne]; rewrite fmap_cons; cbn [fst].
    + rewrite decide_True; [done|left].
    + rewrite IH. destruct (decide (k ∈ d.*1)) as [Hin|Hnin].
      * rewrite decide_True; [done|by right].
      * rewrite decide_False; [done|]. rewrite not_elem_of_cons. naive_solver.
Qed.

Lemma dict_set_fresh d k v : k ∉ dict_keys d -> dict_set d k v = d ++ [(k, v)].
Proof.
  unfold dict_keys. induction d as [|[k0 v0] d IH]; cbn [dict_set]; [done|].
  rewrite fmap_cons, not_elem_of_cons. cbn [fst]. intros [Hne Hnin].
  rewrite decide_False by done. by rewrite IH.
Qed.

Lemma dict_keys_set_NoDup d k v :
  NoDup (dict_keys d) -> NoDup (dict_keys (dict_set d k v)).
Proof.
  intros Hnd. rewrite dict_keys_set. case_decide; [done|].
  apply NoDup_app. split_and!; [done| |apply NoDup_singleton].
  intros x Hx ->%list_elem_of_singleton. done.
Qed.

(** A dictionary is its keys, in order, and what they map to. *)
Lemma dict_ext d1 : forall d2,
  NoDup (dict_keys d1) ->
  dict_keys d1 = dict_keys d2 ->
  (forall k, dict_lookup d1 k = dict_lookup d2 k) ->
  d1 = d2.
Proof.
  unfold dict_keys.
  induction d1 as [|[k1 v1] d1 IH]; intros [|[k2 v2] d2] Hnd Hkeys Hlook;
    try discriminate Hkeys; [done|].
  rewrite !fmap_cons in Hkeys. cbn [fst] in Hkeys. injection Hkeys as -> Hkeys.
  rewrite fmap_cons in Hnd. cbn [fst] in Hnd. apply NoDup_cons in Hnd as [Hnin Hnd].
  pose proof (Hlook k2) as Hk. cbn [dict_lookup] in Hk.
  rewrite !decide_True in Hk by done. injection Hk as ->.
  f_equal. apply IH; [done|done|].
  intros k. specialize (Hlook k). cbn [dict_lookup] in Hlook.
  destruct (decide (k2 = k)) as [<-|]; [|done].
  transitivity (@None V); [by apply dict_lookup_None|].
  symmetry. apply dict_lookup_None. unfold dict_keys. by rewrite <- Hkeys.
Qed.

End dict_facts.

Lemma filter_fmap {A B} (f : A -> B) (P : B -> Prop) `{!forall y, Decision (P y)}
    (l : list A) :
  filter P (f <$> l) = f <$> filter (fun x => P (f x)) l.
Proof.
  induction l as [|x l IH]; [done|].
  rewrite fmap_cons, !filter_cons, IH. by destruct (decide (P (f x))).
Qed.

(** * Deduplication by option ticker *)

Section index_facts.
Implicit Types (d : pydict pyval jobject) (l ts : list jobject) (v : jobject).

Lemma index_snoc d l v :
  index_by_ticker d (l ++ [v]) = dict_set (index_by_ticker d l) (option_ticker v) v.
Proof. unfold index_by_ticker. by rewrite foldl_snoc. Qed.

Lemma index_app d l ts :
  index_by_ticker d (l ++ ts) = index_by_ticker (index_by_ticker d l) ts.
Proof. unfold index_by_ticker. by rewrite foldl_app. Qed.

Lemma dict_set_keyed d v :
  Forall (fun kv => kv.1 = option_ticker kv.2) d ->
  Forall (fun kv => kv.1 = option_ticker kv.2) (dict_set d (option_ticker v) v).
Proof.
  induction 1 as [|[k0 v0] d Hk Hd IH]; cbn [dict_set].
  - by apply Forall_singleton.
  - case_decide as Heq; apply Forall_cons; split; try done.
Qed.

Lemma index_keyed l : forall d,
  Forall (fun kv => kv.1 = option_ticker kv.2) d ->
  Forall (fun kv => kv.1 = option_ticker kv.2) (index_by_ticker d l).
Proof.
  induction l as [|v l IH]; intros d Hd; [done|].
  apply IH. by apply dict_set_keyed.
Qed.

Lemma index_NoDup l : forall d,
  NoDup (dict_keys d) -> NoDup (dict_keys (index_by_ticker d l)).
Proof.
  induction l as [|v l IH]; intros d Hd; [done|].
  apply IH. by apply dict_keys_set_NoDup.
Qed.

(** A key maps to the last record that carries it. *)
Lemma index_lookup l d k :
  dict_lookup (index_by_ticker d l) k =
    match last (filter (fun v => option_ticker v = k) l) with
    | Some v => Some v
    | None => dict_lookup d k
    end.
Proof.
  induction l as [|v l IH] using rev_ind; [done|].
  rewrite index_snoc, dict_lookup_set, filter_app, filter_cons, filter_nil.
  destruct (decide (option_ticker v = k)) as [Hk|Hk].
  - by rewrite last_snoc.
  - by rewrite app_nil_r.
Qed.

Lemma index_values d : forall d0,
  Forall (fun kv => kv.1 = option_ticker kv.2) d ->
  NoDup (dict_keys d) ->
  (forall k, k ∈ dict_keys d0 -> k ∉ dict_keys d) ->
  index_by_ticker d0 (dict_values d) = d0 ++ d.
Proof.
  unfold dict_keys, dict_values.
  induction d as [|[k v] d IH]; intros d0 Hkeyed Hnd Hdisj.
  - by rewrite app_nil_r.
  - apply Forall_cons in Hkeyed as [Hk Hkeyed]. simpl in Hk. subst k.
    rewrite fmap_cons in Hnd. cbn [fst] in Hnd.
    apply NoDup_cons in Hnd as [Hnin Hnd].
    rewrite fmap_cons. cbn [snd index_by_ticker foldl].
    rewrite dict_set_fresh.
    2:{ intros Hin. apply (Hdisj _ Hin). rewrite fmap_cons. left. }
    fold (index_by_ticker (d0 ++ [(option_ticker v, v)]) d.*2).
    rewrite IH; [by rewrite <- app_assoc|done|done|].
    intros k. unfold dict_keys. rewrite fmap_app, elem_of_app.
    intros [Hin| ->%list_elem_of_singleton]; [|done].
    specialize (Hdisj _ Hin). rewrite fmap_cons, not_elem_of_cons in Hdisj.
    by destruct Hdisj.
Qed.

Lemma index_dedup l : index_by_ticker [] (dedup l) = index_by_ticker [] l.
Proof.
  unfold dedup. rewrite index_values; [done| | |].
  - by apply index_keyed.
  - apply index_NoDup. apply NoDup_nil_2.
  - intros k Hk. by apply elem_of_nil in Hk.
Qed.

(** Deduplicating early changes nothing. *)
Lemma dedup_absorb l ts : dedup (dedup l ++ ts) = dedup (l ++ ts).
Proof. unfold dedup at 1 3. by rewrite !index_app, index_dedup. Qed.

Lemma absorb_absorb l ts1 ts2 :
  absorb (absorb l ts1) ts2 = absorb l (ts1 ++ ts2).
Proof.
  destruct ts1 as [|t1 ts1]; [done|].
  destruct ts2 as [|t2 ts2]; [by rewrite app_nil_r|].
  simpl. rewrite dedup_absorb. by rewrite <- app_assoc.
Qed.

Lemma filter_values d k :
  Forall (fun kv => kv.1 = option_ticker kv.2) d ->
  NoDup (dict_keys d) ->
  filter (fun v => option_ticker v = k) (dict_values d) =
    match dict_lookup d k with Some v => [v] | None => [] end.
Proof.
  unfold dict_keys, dict_values.
  induction d as [|[k0 v0] d IH]; intros Hkeyed Hnd; [done|].
  apply Forall_cons in Hkeyed as [Hk Hkeyed]. simpl in Hk. subst k0.
  rewrite fmap_cons in Hnd. cbn [fst] in Hnd.
  apply NoDup_cons in Hnd as [Hnin Hnd].
  rewrite fmap_cons, filter_cons. cbn [snd dict_lookup].
  destruct (decide (option_ticker v0 = k)) as [<-|Hne].
  - rewrite IH by done.
    by assert (dict_lookup d (option_ticker v0) = None) as ->
      by by apply dict_lookup_None.
  - by apply IH.
Qed.

(** After deduplication a key has one record, the last that carried it. *)
Lemma dedup_filter l k :
  filter (fun v => option_ticker v = k) (dedup l) =
    match last (filter (fun v => option_ticker v = k) l) with
    | Some v => [v]
    | None => []
    end.
Proof.
  unfold dedup. rewrite filter_values.
  - rewrite index_lookup. by destruct (last _).
  - by apply index_keyed.
  - apply index_NoDup. apply NoDup_nil_2.
Qed.

Lemma index_keys_stable ts : forall d,
  (forall v, v ∈ ts -> option_ticker v ∈ dict_keys d) ->
  dict_keys (index_by_ticker d ts) = dict_keys d.
Proof.
  induction ts as [|v ts IH]; intros d Hin; [done|].
  cbn [index_by_ticker foldl]. fold (index_by_ticker (dict_set d (option_ticker v) v) ts).
  assert (dict_keys (dict_set d (option_ticker v) v) = dict_keys d) as Hset.
  { rewrite dict_keys_set. rewrite decide_True; [done|]. apply Hin. left. }
  rewrite IH; [done|]. intros v' Hv'. rewrite Hset. apply Hin. by right.
Qed.

Lemma index_keys_elem_of ts d v :
  v ∈ ts -> option_ticker v ∈ dict_keys (index_by_ticker d ts).
Proof.
  intros Hv. destruct (decide (option_ticker v ∈ dict_keys (index_by_ticker d ts)))
    as [|Hnin]; [done|].
  apply dict_lookup_None in Hnin. rewrite index_lookup in Hnin.
  destruct (last _) eqn:Hlast; [done|].
  apply last_None in Hlast.
  by apply (filter_nil_not_elem_of _ _ v) in Hlast.
Qed.

(** Indexing the same records a second time changes nothing. *)
Lemma index_twice ts d :
  NoDup (dict_keys d) ->
  index_by_ticker (index_by_ticker d ts) ts = index_by_ticker d ts.
Proof.
  intros Hnd. apply dict_ext.
  - by do 2 apply index_NoDup.
  - apply index_keys_stable. intros v Hv. by apply index_keys_elem_of.
  - intros k. rewrite index_lookup. destruct (last _) eqn:Hlast; [|done].
    by rewrite index_lookup, Hlast.
Qed.

Lemma dedup_twice l ts : dedup ((l ++ ts) ++ ts) = dedup (l ++ ts).
Proof.
  unfold dedup. rewrite (index_app _ (l ++ ts)), (index_app _ l).
  rewrite index_twice; [done|]. apply index_NoDup. apply NoDup_nil_2.
Qed.

Lemma dict_values_set_elem_of d k v v' :
  v' ∈ dict_values (dict_set d k v) -> v' = v \/ v' ∈ dict_values d.
Proof.
  unfold dict_values. induction d as [|[k0 v0] d IH]; cbn [dict_set].
  - rewrite fmap_cons, elem_of_cons. intros [->|?]; [by left|by right].
  - case_decide; rewrite !fmap_cons, !elem_of_cons; cbn [snd].
    + intros [->|?]; [by left|right; by right].
    + intros [->|Hin]; [right; by left|].
      destruct (IH Hin) as [->|?]; [by left|right; by right].
Qed.

Lemma index_values_elem_of ts : forall d v,
  v ∈ dict_values (index_by_ticker d ts) -> v ∈ dict_values d \/ v ∈ ts.
Proof.
  induction ts as [|t ts IH]; intros d v Hv; [by left|].
  apply IH in Hv as [Hv|Hv]; [|right; by right].
  apply dict_values_set_elem_of in Hv as [->|Hv]; [right; left|by left].
Qed.

Lemma dedup_Forall (P : jobject -> Prop) l : Forall P l -> Forall P (dedup l).
Proof.
  rewrite !Forall_forall. intros Hl v Hv.
  apply index_values_elem_of in Hv as [Hv|Hv]; [|by apply Hl].
  by apply elem_of_nil in Hv.
Qed.

Lemma by_option_ticker_ok l : forall d,
  Forall has_option_ticker l ->
  OptionsContracts.by_option_ticker d l = Ok (index_by_ticker d l).
Proof.
  induction l as [|v l IH]; intros d Hl; [done|].
  apply Forall_cons in Hl as [[k Hk] Hl].
  cbn [OptionsContracts.by_option_ticker]. unfold dict_item. rewrite Hk.
  cbn [mbind result_bind]. rewrite IH by done.
  unfold index_by_ticker, option_ticker, dict_get. cbn [foldl]. by rewrite Hk.
Qed.

End index_facts.

(** * The record normalizers *)

Section normalizer_facts.
Import PolygonPaginator.
Context {timestamp : Type}.

Local Abbreviation paginator := (paginator timestamp).

Lemma set_clean_results_id (self : paginator) :
  set_clean_results self (clean_results self) = self.
Proof. by destruct self. Qed.

Lemma try_map_Ok {A B} (f : A -> result B) l : forall ys,
  try_map f l = Ok ys -> Forall2 (fun x y => f x = Ok y) l ys.
Proof.
  induction l as [|x l IH]; intros ys; simpl.
  - intros [= <-]. constructor.
  - destruct (f x) as [y|] eqn:Hx; [|done].
    destruct (try_map f l) as [ys'|]; [|done].
    intros [= <-]. constructor; [done|by apply IH].
Qed.

(** ** Ticker metadata *)

Lemma stock_clean_data_records tickers : forall self : paginator,
  for_each (fun ticker self =>
      (set_clean_results self
         (clean_results self ++ [StockMetaData.normalize ticker]), None))
    tickers self =
  (set_clean_results self
     (clean_results self ++ (StockMetaData.normalize <$> tickers)), None).
Proof.
  induction tickers as [|ticker tickers IH]; intros self; cbn [for_each].
  - by rewrite app_nil_r, set_clean_results_id.
  - rewrite IH, fmap_cons. cbn [clean_results set_clean_results].
    by rewrite <- app_assoc.
Qed.

Lemma stock_clean_data_pages pages : forall self : paginator,
  Forall has_results pages ->
  for_each (fun result_list self =>
      match page_results result_list with
      | None => (self, Some (KeyError "results"))
      | Some tickers =>
          for_each (fun ticker self =>
              (set_clean_results self
                 (clean_results self ++ [StockMetaData.normalize ticker]), None))
            tickers self
      end) pages self =
    (set_clean_results self
       (clean_results self ++ (StockMetaData.normalize <$> page_records pages)),
     None).
Proof.
  induction pages as [|page pages IH]; intros self Hpages; cbn [for_each].
  - by rewrite app_nil_r, set_clean_results_id.
  - apply Forall_cons in Hpages as [[tickers Hpage] Hpages]. rewrite Hpage.
    rewrite stock_clean_data_records, IH by done.
    unfold page_records. rewrite bind_cons, Hpage.
    cbn [clean_results set_clean_results default].
    by rewrite fmap_app, app_assoc.
Qed.

Lemma stock_clean_data (self : paginator) :
  Forall has_results (results self) ->
  StockMetaData.clean_data self =
    (set_clean_results self
       (clean_results self
          ++ (StockMetaData.normalize <$> page_records (results self))),
     None).
Proof. apply stock_clean_data_pages. Qed.

(** ** Price bars *)

Section price_bars.
Variable timestamp_to_datetime_msec : pyval -> result pyval.
Variable ticker_id : pyval.

Local Abbreviation normalize :=
  (HistoricalStockPrices.normalize timestamp_to_datetime_msec ticker_id).

Lemma prices_clean_data_records records : forall ts (self : paginator),
  Forall2 (fun x y => normalize x = Ok y) records ts ->
  for_each (fun record self =>
      match normalize record with
      | Raise e => (self, Some e)
      | Ok t => (set_clean_results self (clean_results self ++ [t]), None)
      end) records self =
    (set_clean_results self (clean_results self ++ ts), None).
Proof.
  induction records as [|record records IH]; intros ts self Hts;
    inversion Hts as [|? t ? ts' Ht Hts']; subst; cbn [for_each].
  - by rewrite app_nil_r, set_clean_results_id.
  - rewrite Ht, (IH ts') by done. cbn [clean_results set_clean_results].
    by rewrite <- app_assoc.
Qed.

Lemma prices_clean_data_pages pages : forall ts (self : paginator),
  Forall has_results pages ->
  Forall2 (fun x y => normalize x = Ok y) (page_records pages) ts ->
  for_each (fun page self =>
      match page_results page with
      | None => (self, Some TypeError)
      | Some records =>
          for_each (fun record self =>
              match normalize record with
              | Raise e => (self, Some e)
              | Ok t => (set_clean_results self (clean_results self ++ [t]), None)
              end) records self
      end) pages self =
    (set_clean_results self (clean_results self ++ ts), None).
Proof.
  induction pages as [|page pages IH]; intros ts self Hpages Hts; cbn [for_each].
  - inversion Hts. by rewrite app_nil_r, set_clean_results_id.
  - apply Forall_cons in Hpages as [[records Hpage] Hpages]. rewrite Hpage.
    unfold page_records in Hts. rewrite bind_cons, Hpage in Hts.
    cbn [default] in Hts.
    apply Forall2_app_inv_l in Hts as (ts1 & ts2 & Hts1 & Hts2 & ->).
    rewrite (prices_clean_data_records records ts1) by done.
    rewrite (IH ts2) by done. cbn [clean_results set_clean_results].
    by rewrite <- app_assoc.
Qed.

Lemma prices_clean_data (self : paginator) ts :
  Forall has_results (results self) ->
  try_map normalize (page_records (results self)) = Ok ts ->
  HistoricalStockPrices.clean_data timestamp_to_datetime_msec ticker_id self =
    (set_clean_results self (clean_results self ++ ts), None).
Proof.
  intros Hpages Hts. apply prices_clean_data_pages; [done|by apply try_map_Ok].
Qed.

End price_bars.

(** ** Option contracts *)

Section option_contracts.
Variable ticker_id : pyval.

Local Abbreviation normalize := (OptionsContracts.normalize ticker_id).

Lemma normalize_option_ticker record :
  option_ticker (normalize record) = dict_get record "ticker".
Proof. reflexivity. Qed.

Lemma normalize_has_option_ticker record : has_option_ticker (normalize record).
Proof. by exists (dict_get record "ticker"). Qed.

Lemma options_fold records : forall self : paginator,
  foldl (fun s record =>
           set_clean_results s (dedup (clean_results s ++ [normalize record])))
    self records =
  set_clean_results self (absorb (clean_results self) (normalize <$> records)).
Proof.
  induction records as [|record records IH]; intros self.
  - simpl. by rewrite set_clean_results_id.
  - cbn [foldl]. rewrite IH. cbn [clean_results set_clean_results].
    change (dedup (clean_results self ++ [normalize record]))
      with (absorb (clean_results self) [normalize record]).
    by rewrite absorb_absorb.
Qed.

Lemma options_clean_data_pages pages : forall self : paginator,
  Forall has_results pages ->
  Forall has_option_ticker (clean_results self) ->
  for_each (fun page self =>
      match page_results page with
      | None => (self, Some TypeError)
      | Some records =>
          for_each (fun record self =>
              let t := normalize record in
              let self := set_clean_results self (clean_results self ++ [t]) in
              match OptionsContracts.by_option_ticker [] (clean_results self) with
              | Raise e => (self, Some e)
              | Ok d => (set_clean_results self (dict_values d), None)
              end) records self
      end) pages self =
    (set_clean_results self
       (absorb (clean_results self) (normalize <$> page_records pages)),
     None).
Proof.
  intros self Hpages Hself.
  pose (inner := fun (s : paginator) record =>
    set_clean_results s (dedup (clean_results s ++ [normalize record]))).
  pose (I := fun s : paginator => Forall has_option_ticker (clean_results s)).
  match goal with
  | |- for_each ?body _ _ = _ =>
      destruct (for_each_foldl I body
                  (fun s p => foldl inner s (default [] (page_results p)))
                  pages self Hself) as [-> _]
  end.
  - intros page s Hpage Hs.
    rewrite Forall_forall in Hpages. destruct (Hpages page Hpage) as [records Hrec].
    rewrite Hrec. apply (for_each_foldl I); [done|].
    intros record s' _ Hs'. cbn zeta. cbn [clean_results set_clean_results].
    assert (Forall has_option_ticker (clean_results s' ++ [normalize record])) as Hall.
    { apply Forall_app. split; [done|].
      apply Forall_singleton, normalize_has_option_ticker. }
    rewrite by_option_ticker_ok by done. split; [done|].
    unfold I, inner. cbn [clean_results set_clean_results]. by apply dedup_Forall.
  - rewrite (foldl_bind inner (fun p => default [] (page_results p))).
    unfold inner. by rewrite options_fold.
Qed.

Lemma options_clean_data (self : paginator) :
  Forall has_results (results self) ->
  Forall has_option_ticker (clean_results self) ->
  OptionsContracts.clean_data ticker_id self =
    (set_clean_results self
       (absorb (clean_results self) (normalize <$> page_records (results self))),
     None).
Proof. apply options_clean_data_pages. Qed.

Lemma absorb_Forall (P : jobject -> Prop) l ts :
  Forall P l -> Forall P ts -> Forall P (absorb l ts).
Proof.
  intros Hl Hts. destruct ts; [done|].
  apply dedup_Forall, Forall_app. by split.
Qed.

Lemma absorb_twice l ts : absorb (absorb l ts) ts = absorb l ts.
Proof.
  rewrite absorb_absorb. destruct ts as [|t ts]; [done|].
  cbn [absorb app]. change (t :: ts ++ t :: ts) with ((t :: ts) ++ (t :: ts)).
  by rewrite app_assoc, dedup_twice.
Qed.

Lemma by_option_ticker_inv l : forall d d',
  OptionsContracts.by_option_ticker d l = Ok d' -> d' = index_by_ticker d l.
Proof.
  induction l as [|v l IH]; intros d d'; cbn [OptionsContracts.by_option_ticker].
  - by intros [= <-].
  - unfold dict_item. destruct (dict_lookup v "option_ticker") as [k|] eqn:Hk; [|done].
    cbn [mbind result_bind]. intros Hd'%IH. subst d'.
    unfold index_by_ticker, option_ticker, dict_get. cbn [foldl]. by rewrite Hk.
Qed.

End option_contracts.

(** ** The shape of the normalized records

    Whatever [clean_results] held, and whether [clean_data] ends normally or
    not, it only ever adds records of the shape of its kind. *)

Lemma stock_clean_data_canonical (self : paginator) :
  Forall (canonical TickerMetadata) (clean_results self) ->
  Forall (canonical TickerMetadata) (clean_results (StockMetaData.clean_data self).1).
Proof.
  intros Hself. unfold StockMetaData.clean_data.
  apply (for_each_inv
    (fun s : paginator => Forall (canonical TickerMetadata) (clean_results s)));
    [done|].
  intros page s _ Hs. destruct (page_results page) as [tickers|]; [|done].
  apply (for_each_inv
    (fun s : paginator => Forall (canonical TickerMetadata) (clean_results s)));
    [done|].
  intros ticker s' _ Hs'. cbn [fst clean_results set_clean_results].
  apply Forall_app. split; [done|]. by apply Forall_singleton.
Qed.

Lemma prices_normalize_canonical
    (timestamp_to_datetime_msec : pyval -> result pyval) ticker_id record t :
  HistoricalStockPrices.normalize timestamp_to_datetime_msec ticker_id record = Ok t ->
  canonical PriceBar t.
Proof.
  unfold HistoricalStockPrices.normalize.
  change (dict_item _ "as_of_date") with (@Ok pyval (dict_get record "t")).
  cbn [mbind result_bind].
  destruct (timestamp_to_datetime_msec (dict_get record "t")) as [d|]; [|done].
  by intros [= <-].
Qed.

Lemma prices_clean_data_canonical
    (timestamp_to_datetime_msec : pyval -> result pyval) ticker_id (self : paginator) :
  Forall (canonical PriceBar) (clean_results self) ->
  Forall (canonical PriceBar)
    (clean_results
       (HistoricalStockPrices.clean_data timestamp_to_datetime_msec ticker_id self).1).
Proof.
  intros Hself. unfold HistoricalStockPrices.clean_data.
  apply (for_each_inv
    (fun s : paginator => Forall (canonical PriceBar) (clean_results s))); [done|].
  intros page s _ Hs. destruct (page_results page) as [records|]; [|done].
  apply (for_each_inv
    (fun s : paginator => Forall (canonical PriceBar) (clean_results s))); [done|].
  intros record s' _ Hs'.
  destruct (HistoricalStockPrices.normalize _ _ record) as [t|] eqn:Ht; [|done].
  cbn [fst clean_results set_clean_results].
  apply Forall_app. split; [done|].
  apply Forall_singleton. by eapply prices_normalize_canonical.
Qed.

Lemma options_clean_data_canonical ticker_id (self : paginator) :
  Forall (canonical OptionContract) (clean_results self) ->
  Forall (canonical OptionContract)
    (clean_results (OptionsContracts.clean_data ticker_id self).1).
Proof.
  intros Hself. unfold OptionsContracts.clean_data.
  apply (for_each_inv
    (fun s : paginator => Forall (canonical OptionContract) (clean_results s)));
    [done|].
  intros page s _ Hs. destruct (page_results page) as [records|]; [|done].
  apply (for_each_inv
    (fun s : paginator => Forall (canonical OptionContract) (clean_results s)));
    [done|].
  intros record s' _ Hs'. cbn zeta. cbn [clean_results set_clean_results].
  assert (Forall (canonical OptionContract)
            (clean_results s' ++ [OptionsContracts.normalize ticker_id record])) as Hall.
  { apply Forall_app. split; [done|]. by apply Forall_singleton. }
  destruct (OptionsContracts.by_option_ticker [] _) as [d|] eqn:Hd; [|done].
  apply by_option_ticker_inv in Hd as ->.
  cbn [fst clean_results set_clean_results]. by apply dedup_Forall.
Qed.

End normalizer_facts.

Section normalizer_claims.
Import PolygonPaginator.
Context {timestamp : Type}.

Local Abbreviation paginator := (paginator timestamp).

(** C4. When every accumulated page has its results array,
    [OptionsContracts.clean_data] returns normally, and for every option
    ticker occurring in the records of those pages, [clean_results] then
    holds exactly one record with that [option_ticker]: the normalized form
    of the last record of the pages, in processing order, that carries the
    ticker. *)
Theorem clean_data_last_wins (ticker_id : pyval) (self : paginator) :
  Forall has_results (results self) ->
  Forall has_option_ticker (clean_results self) ->
  exists self',
    OptionsContracts.clean_data ticker_id self = (self', None) /\
    results self' = results self /\
    forall k,
      k ∈ (fun record => dict_get record "ticker") <$> page_records (results self) ->
      exists record,
        last (filter (fun record => dict_get record "ticker" = k)
                (page_records (results self))) = Some record /\
        filter (fun v => option_ticker v = k) (clean_results self') =
          [OptionsContracts.normalize ticker_id record].
Proof.
  intros Hpages Hself. eexists. split; [by apply options_clean_data|].
  split; [done|]. cbn [clean_results set_clean_results].
  intros k (record0 & -> & Hin)%list_elem_of_fmap.
  generalize dependent (page_records (results self)). intros records Hin.
  set (P := fun record : jobject => dict_get record "ticker" = dict_get record0 "ticker").
  destruct (last (filter P records)) as [record|] eqn:Hlast.
  2:{ apply last_None in Hlast.
      by apply (filter_nil_not_elem_of _ _ record0) in Hlast. }
  exists record. split; [done|].
  assert (absorb (clean_results self) (OptionsContracts.normalize ticker_id <$> records)
          = dedup (clean_results self
                     ++ (OptionsContracts.normalize ticker_id <$> records))) as ->.
  { destruct records; [by apply elem_of_nil in Hin|done]. }
  rewrite dedup_filter, filter_app, last_app.
  rewrite (filter_fmap (OptionsContracts.normalize ticker_id)).
  rewrite (list_filter_iff _ P) by done.
  by rewrite fmap_last, Hlast.
Qed.

(** C9 (amended). Invoked a second time on the state it has left,
    [OptionsContracts.clean_data] leaves that state as it is. The
    [clean_data] of [StockMetaData] and of [HistoricalStockPrices] append
    the normalized records of the pages once more: a second invocation
    leaves [clean_results] unchanged only when the pages hold no record. *)
Theorem clean_data_twice
    (timestamp_to_datetime_msec : pyval -> result pyval)
    (ticker_id : pyval) (self : paginator) :
  Forall has_results (results self) ->
  (Forall has_option_ticker (clean_results self) ->
   exists self1,
     OptionsContracts.clean_data ticker_id self = (self1, None) /\
     OptionsContracts.clean_data ticker_id self1 = (self1, None)) /\
  (exists self1 self2,
     StockMetaData.clean_data self = (self1, None) /\
     StockMetaData.clean_data self1 = (self2, None) /\
     clean_results self1 =
       clean_results self
         ++ (StockMetaData.normalize <$> page_records (results self)) /\
     clean_results self2 =
       clean_results self1
         ++ (StockMetaData.normalize <$> page_records (results self))) /\
  (forall ts,
     try_map (HistoricalStockPrices.normalize timestamp_to_datetime_msec ticker_id)
       (page_records (results self)) = Ok ts ->
     exists self1 self2,
       HistoricalStockPrices.clean_data timestamp_to_datetime_msec ticker_id self
         = (self1, None) /\
       HistoricalStockPrices.clean_data timestamp_to_datetime_msec ticker_id self1
         = (self2, None) /\
       clean_results self1 = clean_results self ++ ts /\
       clean_results self2 = clean_results self1 ++ ts).
Proof.
  intros Hpages. split_and!.
  - intros Hself. eexists. split; [by apply options_clean_data|].
    rewrite options_clean_data; cbn [results clean_results set_clean_results].
    + rewrite absorb_twice.
      by rewrite <- (set_clean_results_id (set_clean_results self _)) at 1.
    + done.
    + apply absorb_Forall; [done|].
      apply Forall_fmap, Forall_true. intros record.
      apply normalize_has_option_ticker.
  - eexists _, _. split; [by apply stock_clean_data|].
    split; [by apply stock_clean_data|]. done.
  - intros ts Hts. eexists _, _. split; [by apply prices_clean_data|].
    split; [by apply prices_clean_data|]. done.
Qed.

End normalizer_claims.

(** * The calendar window generator *)

Section calendar_facts.
Context {date : Type}.
Variable first_weekday_of_month : string -> date.
Variable date_str : date -> string.

Local Abbreviation _determine_base_dates :=
  (OptionsContracts._determine_base_dates first_weekday_of_month date_str).

(** The loop ends by its condition within the fuel it is given, after one
    entry for each value of the counter up to [months_hist]. *)
Lemma base_dates_loop_length fuel : forall months_hist counter year month arr,
  Z.to_nat (months_hist + 1 - counter) <= fuel ->
  exists l,
    OptionsContracts.base_dates_loop fuel months_hist counter year month arr = Some l /\
    length l = length arr + Z.to_nat (months_hist + 1 - counter).
Proof.
  induction fuel as [|fuel IH]; intros months_hist counter year month arr Hfuel;
    cbn [OptionsContracts.base_dates_loop];
    destruct (Z.leb_spec counter months_hist) as [Hle|Hgt]; try lia;
    try (exists arr; split; [done|lia]).
  destruct (month =? 1)%Z;
    (edestruct IH as (l & -> & Hlen); [|exists l; split; [done|]];
     [lia|rewrite Hlen, length_app; simpl; lia]).
Qed.

(** [_determine_base_dates] returns [months_hist + 1] dates. *)
Lemma _determine_base_dates_length now_year now_month months_hist :
  exists l,
    _determine_base_dates now_year now_month months_hist = Some l /\
    length l = Z.to_nat (months_hist + 1).
Proof.
  unfold OptionsContracts._determine_base_dates.
  destruct (base_dates_loop_length (Z.to_nat (months_hist + 1)) months_hist 0
              now_year now_month []) as (l & -> & Hlen); [lia|].
  eexists. split; [done|]. rewrite length_fmap, Hlen. simpl. f_equal. lia.
Qed.

(** C8 (amended). With the current date in February 2024 and 13 months of
    history, [_determine_base_dates] yields 14 dates, one more than the
    months of history: the first weekdays of the months from February 2024,
    the current month, back to January 2023, each month once and in
    decreasing order, the year changing once, between January 2024 and
    December 2023. *)
Theorem base_dates_february_2024 :
  _determine_base_dates 2024 2 13 =
    Some ((fun ym => date_str (first_weekday_of_month ym)) <$>
            ["2024-02"; "2024-01"; "2023-12"; "2023-11"; "2023-10"; "2023-09";
             "2023-08"; "2023-07"; "2023-06"; "2023-05"; "2023-04"; "2023-03";
             "2023-02"; "2023-01"]) /\
  length <$> _determine_base_dates 2024 2 13 = Some 14.
Proof. split; reflexivity. Qed.

End calendar_facts.

(** * The claims at sample inputs *)

Section samples.
Import PolygonPaginator Sample.

Local Abbreviation query_all := (PolygonPaginator.query_all api_key to_datetime).

Lemma query_all_terminates_witness :
  Exists (fun r => continues r = false) two_pages /\
  let run := query_all two_pages url [] false fresh in
  run.1.1 <> Awaiting /\
  results run.1.2 = results fresh ++ pages_of (consumed two_pages) /\
  length (requests run.2) = length (consumed two_pages).
Proof.
  assert (Exists (fun r : response Z => continues r = false) two_pages) as H.
  { do 2 apply Exists_cons_tl. apply Exists_cons_hd. reflexivity. }
  split; [exact H|].
  exact (query_all_terminates api_key to_datetime two_pages url [] false fresh H).
Defined.

Lemma query_all_throttle_witness :
  (MAX_QUERY_PER_MINUTE <= query_count saturated)%Z /\
  exists seconds,
    query_all [] url [] false saturated =
      prepend [Sleep seconds; LogInfo url [("apiKey", api_key)] false;
               Get url [("apiKey", api_key)]]
        (await_response api_key to_datetime [] url [("apiKey", api_key)]
           (set_query_time_log (set_query_count saturated 0) [])) /\
    seconds = 3%Z.
Proof.
  assert (MAX_QUERY_PER_MINUTE <= query_count saturated)%Z as H by reflexivity.
  split; [exact H|].
  destruct (query_all_throttle api_key to_datetime [] url [] false saturated)
    as [Hthrottled _].
  destruct (Hthrottled (or_introl H)) as (seconds & Hrun & _ & Hlong).
  exists seconds. split; [exact Hrun|].
  refine (Hlong _ _ _ eq_refl eq_refl). simpl. lia.
Defined.

Lemma query_all_raises_iff_witness :
  (query_all failing url [] false fresh).1.1 = Raised (ClientResponseError 500).
Proof.
  destruct (query_all_raises_iff api_key to_datetime failing url [] false fresh)
    as [Hiff _].
  apply Hiff. exists [reply 200 page_1 1000000], (reply 500 no_page 2000000), [].
  repeat split; simpl; lia.
Defined.

Lemma query_all_frame_witness :
  query_all [reply 200 page_1 1000000] url [] false fresh =
    (Awaiting,
     received (reply 200 page_1 1000000) fresh,
     [LogInfo url [("apiKey", api_key)] false; Get url [("apiKey", api_key)];
      LogStatus 200;
      LogInfo (next_url page_1) [("apiKey", api_key)] false;
      Get (next_url page_1) [("apiKey", api_key)]]) /\
  exists t,
    query_all failing url [] false fresh =
      (Raised (ClientResponseError 500),
       set_query_count (received (reply 200 page_1 1000000) fresh) 2, t).
Proof.
  assert (query_all [reply 200 page_1 1000000] url [] false fresh =
    (Awaiting,
     received (reply 200 page_1 1000000) fresh,
     [LogInfo url [("apiKey", api_key)] false; Get url [("apiKey", api_key)];
      LogStatus 200;
      LogInfo (next_url page_1) [("apiKey", api_key)] false;
      Get (next_url page_1) [("apiKey", api_key)]])) as H by reflexivity.
  split; [exact H|].
  destruct (query_all_frame api_key to_datetime _ (reply 500 no_page 2000000) []
              _ _ _ _ _ _ H) as (url' & payload' & _ & _ & _ & _ & _ & Hfatal).
  eexists. exact (Hfatal eq_refl).
Defined.

Lemma clean_data_last_wins_witness :
  Forall has_results (results collected) /\
  Forall has_option_ticker (clean_results collected) /\
  exists self',
    OptionsContracts.clean_data (PInt 7) collected = (self', None) /\
    results self' = results collected /\
    forall k,
      k ∈ (fun record => dict_get record "ticker")
            <$> page_records (results collected) ->
      exists record,
        last (filter (fun record => dict_get record "ticker" = k)
                (page_records (results collected))) = Some record /\
        filter (fun v => option_ticker v = k) (clean_results self') =
          [OptionsContracts.normalize (PInt 7) record].
Proof.
  assert (Forall has_results (results collected)) as H1.
  { repeat constructor; by eexists. }
  assert (Forall has_option_ticker (clean_results collected)) as H2 by constructor.
  split; [exact H1|]. split; [exact H2|].
  exact (clean_data_last_wins (PInt 7) collected H1 H2).
Defined.

Lemma clean_data_twice_witness :
  Forall has_results (results collected) /\
  exists self1,
    OptionsContracts.clean_data (PInt 7) collected = (self1, None) /\
    OptionsContracts.clean_data (PInt 7) self1 = (self1, None).
Proof.
  assert (Forall has_results (results collected)) as H1.
  { repeat constructor; by eexists. }
  split; [exact H1|].
  destruct (clean_data_twice to_datetime_msec (PInt 7) collected H1) as [Hopt _].
  apply Hopt. constructor.
Defined.

Lemma batches_cover_witness :
  clean_results many_contracts <> [] /\
  Forall (canonical OptionContract) (clean_results many_contracts) /\
  exists batches,
    make_clean_generator many_contracts = (batches, None) /\
    concat batches = clean_results many_contracts.
Proof.
  assert (clean_results many_contracts <> []) as H1 by discriminate.
  assert (Forall (canonical OptionContract) (clean_results many_contracts)) as H2.
  { apply Forall_replicate. reflexivity. }
  split; [exact H1|]. split; [exact H2|].
  exact (batches_cover OptionContract many_contracts H1 H2).
Defined.

Lemma batch_length_rounds_witness :
  let first := OptionsContracts.normalize (PInt 7) (contract "O:A" 100) in
  clean_results many_contracts !! 0 = Some first /\
  (0 < Z.of_nat (length first) < 120000)%Z /\
  let batch_size := Z.to_nat (round_div 60000 (Z.of_nat (length first))) in
  0 < batch_size /\
  exists batches,
    make_clean_generator many_contracts = (batches, None) /\
    length batches =
      (length (clean_results many_contracts) + batch_size - 1) `div` batch_size /\
    forall j batch,
      batches !! j = Some batch ->
      batch = take batch_size (drop (j * batch_size) (clean_results many_contracts)) /\
      0 < length batch <= batch_size /\
      (S j < length batches -> length batch = batch_size).
Proof.
  intros first.
  assert (clean_results many_contracts !! 0 = Some first) as H1 by reflexivity.
  assert (0 < Z.of_nat (length first) < 120000)%Z as H2 by (simpl; lia).
  split; [exact H1|]. split; [exact H2|].
  exact (batch_length_rounds many_contracts first H1 H2).
Defined.

(** C3, as stated, fails: a response with status 204 is neither a 200 nor a
    429, and [query_all] returns normally on it, raising nothing. *)
Lemma status_204_returns :
  let r := reply 204 no_page 1000000 in
  (status r <> 200%Z /\ status r <> 429%Z) /\
  (query_all [r] url [] false fresh).1.1 = Returned.
Proof. repeat split; simpl; lia. Qed.

(** The failing input of C6: an instance whose only page holds no record,
    once [clean_data] has run over it. *)
Lemma generator_without_records_witness :
  let self := (StockMetaData.clean_data no_records).1 in
  clean_results self = [] /\
  make_clean_generator self = ([], Some IndexError) /\
  drain (set_clean_data_generator self CleanGenerator) = ([], Some IndexError) /\
  drain (set_clean_data_generator self EmptyIter) = ([], None).
Proof.
  intros self.
  assert (clean_results self = []) as H by reflexivity.
  split; [exact H|]. exact (generator_without_records self H).
Defined.

(** C7, as stated, fails: over 6667 records of 9 fields the first batch has
    6667 records, where the floor of 60000 / 9 is 6666. *)
Lemma batch_length_is_not_floor :
  exists first batch,
    clean_results many_contracts !! 0 = Some first /\
    (make_clean_generator many_contracts).1 !! 0 = Some batch /\
    Z.of_nat (length first) = 9%Z /\
    Z.of_nat (length batch) = 6667%Z /\
    Z.of_nat (length batch) <> (60000 / Z.of_nat (length first))%Z.
Proof.
  set (first := OptionsContracts.normalize (PInt 7) (contract "O:A" 100)).
  assert (Z.of_nat (length first) = 9%Z) as Hlen by reflexivity.
  assert (Z.to_nat (round_div 60000 (Z.of_nat (length first))) = Z.to_nat 6667)
    as Hsize by (rewrite Hlen; reflexivity).
  assert (clean_results many_contracts !! 0 = Some first) as Hfirst.
  { apply lookup_replicate_2. lia. }
  assert (length (clean_results many_contracts) = Z.to_nat 6667) as Hn
    by apply length_replicate.
  exists first,
    (take (Z.to_nat 6667) (drop (0 * Z.to_nat 6667) (clean_results many_contracts))).
  split; [exact Hfirst|]. split.
  - rewrite (make_clean_generator_batches many_contracts first Hfirst); [|lia|lia].
    cbn [fst]. rewrite Hsize, Hn, list_lookup_fmap, lookup_py_range.
    rewrite decide_True.
    + cbn [fmap option_fmap option_map]. by rewrite slice_step.
    + apply Nat.div_str_pos. lia.
  - split; [exact Hlen|].
    rewrite length_take, length_drop, Hn, Hlen.
    change (60000 / 9)%Z with 6666%Z. lia.
Qed.

(** C8, as stated, fails: from February 2024 with 13 months of history the
    generator yields 14 anchors, not 13, and the first is February 2024,
    not January 2024. *)
Lemma base_dates_are_fourteen :
  let dates := OptionsContracts._determine_base_dates (fun ym => ym) (fun d => d)
                 2024 2 13 in
  length <$> dates = Some 14 /\
  dates ≫= head = Some "2024-02" /\
  dates ≫= last = Some "2023-01".
Proof. repeat split. Qed.

(** C9, as stated, fails: over one page with one record, the second
    invocation of [StockMetaData.clean_data] leaves two records where the
    first had left one. *)
Lemma clean_data_twice_differs :
  let self := set_results fresh [page_2] in
  let self1 := (StockMetaData.clean_data self).1 in
  let self2 := (StockMetaData.clean_data self1).1 in
  results self1 = results self /\
  length (clean_results self1) = 1 /\
  length (clean_results self2) = 2 /\
  clean_results self2 <> clean_results self1.
Proof. repeat split. discriminate. Qed.

End samples.

(** * Further properties of the pagination engine *)

Section engine_more.
Import PolygonPaginator.
Context {timestamp : Type}.
Variable KEY : pyval.
Variable t2d : timestamp -> Z.

Local Abbreviation query_all := (PolygonPaginator.query_all KEY t2d).
Local Abbreviation paginator := (paginator timestamp).
Local Abbreviation response := (response timestamp).

Ltac by_class r :=
  destruct (classify r) as
    [H200 Hnext Hcont|H200 Hnext Hcont|H200 H429 Hcont|H200 H429 Hcont];
  rewrite ?H200, ?H429, ?Hnext, ?Hcont; cbv iota.

Lemma throttle_cases (self : paginator) overload :
  (throttle t2d self overload =
     (set_query_time_log (set_query_count self 0) [], [Sleep (_api_sleep_time t2d self)]))
  \/ ((query_count self < MAX_QUERY_PER_MINUTE)%Z /\ overload = false /\
      throttle t2d self overload = (self, [])).
Proof.
  unfold throttle. destruct (Z.leb_spec MAX_QUERY_PER_MINUTE (query_count self));
    [by left|]. destruct overload; [by left|by right].
Qed.

(** X1. [_api_sleep_time] never exceeds 60 seconds, and it is not negative
    when the newest log entry is not older than the oldest. *)
Theorem _api_sleep_time_bounds (self : paginator) :
  (_api_sleep_time t2d self <= 60)%Z /\
  (forall oldest newest,
     head (query_time_log self) = Some oldest ->
     last (query_time_log self) = Some newest ->
     (t2d (query_timestamp oldest) <= t2d (query_timestamp newest))%Z ->
     (0 <= _api_sleep_time t2d self)%Z).
Proof.
  unfold _api_sleep_time. split.
  - case_decide; [|lia].
    destruct (head (query_time_log self)) as [e0|]; [|lia].
    destruct (last (query_time_log self)) as [e1|]; [|lia]. cbv zeta.
    match goal with |- context [(?a <? ?b)%Z] => destruct (Z.ltb_spec a b) end; lia.
  - intros oldest newest -> -> Hle. case_decide; [|lia]. cbv zeta.
    pose proof (ceil_div_spec (t2d (query_timestamp newest)
                               - t2d (query_timestamp oldest)) 1000000 ltac:(lia)).
    match goal with |- context [(?a <? ?b)%Z] => destruct (Z.ltb_spec a b) end; lia.
Qed.

(** X2. Whatever the upstream answers, a run of [query_all] never issues a
    fifth request without a sleep since the fourth: counting from the
    [query_count] it starts with, every request of its trace is within the
    quota. *)
Theorem query_all_within_quota upstream : forall url payload overload (self : paginator),
  within_quota (query_count self) (query_all upstream url payload overload self).2 = true.
Proof.
  induction upstream as [|r upstream IH]; intros url payload overload self;
    rewrite query_all_unfold; cbv zeta; rewrite prepend_snd;
    destruct (throttle_cases self overload) as [->|(Hlt & -> & ->)];
    cbn [fst snd app within_quota await_response prepend];
    rewrite ?prepend_snd; cbn [app within_quota query_count set_query_count
                                 set_query_time_log];
    try (apply Z.ltb_lt in Hlt; rewrite Hlt); cbn [andb]; try done.
  - set (g := set_query_time_log (set_query_count self 0) []).
    replace (0 + 1)%Z with (query_count (received r g))
      by (by rewrite received_query_count).
    change (0 <? MAX_QUERY_PER_MINUTE)%Z with true. cbn [andb].
    by_class r; cbn [snd within_quota]; by rewrite ?IH.
  - replace (query_count self + 1)%Z with (query_count (received r self))
      by (by rewrite received_query_count).
    by_class r; cbn [snd within_quota]; by rewrite ?IH.
Qed.


Lemma chain_outcome_without_429 (upstream : list response) :
  chain_outcome (filter (fun r => status r <> 429%Z) upstream) = chain_outcome upstream.
Proof.
  induction upstream as [|r upstream IH]; [done|].
  rewrite filter_cons. destruct (decide (status r <> 429%Z)) as [Hne|Heq].
  - cbn [chain_outcome]. by rewrite IH.
  - cbn [chain_outcome]. unfold continues.
    assert (status r = 429%Z) as -> by lia. by rewrite IH.
Qed.

Lemma pages_without_429 (upstream : list response) :
  pages_of (consumed (filter (fun r => status r <> 429%Z) upstream)) =
    pages_of (consumed upstream).
Proof.
  induction upstream as [|r upstream IH]; [done|].
  rewrite filter_cons. destruct (decide (status r <> 429%Z)) as [Hne|Heq].
  - cbn [consumed]. destruct (continues r); by rewrite !pages_of_cons, ?IH.
  - cbn [consumed]. assert (status r = 429%Z) as Hst by lia.
    assert (continues r = true) as -> by (unfold continues; by rewrite Hst).
    by rewrite pages_of_cons, Hst, IH.
Qed.

(** X4. Throttled responses leave no mark on what a run collects: over an
    upstream and over the same upstream with its 429 responses taken out,
    [query_all] ends the same way and leaves the same pages in
    [results]. *)
Theorem query_all_429_transparent upstream url payload overload (self : paginator) :
  let answered := filter (fun r => status r <> 429%Z) upstream in
  (query_all answered url payload overload self).1.1 =
    (query_all upstream url payload overload self).1.1 /\
  results (query_all answered url payload overload self).1.2 =
    results (query_all upstream url payload overload self).1.2.
Proof.
  cbv zeta. rewrite !query_all_outcome, !query_all_results.
  by rewrite chain_outcome_without_429, pages_without_429.
Qed.

(** Every line [query_all] logs before a request, and every request it
    sends, shows the credential under ["apiKey"]. *)
Lemma query_all_shows_key upstream : forall url payload overload (self : paginator),
  Forall (carries_key KEY) (query_all upstream url payload overload self).2.
Proof.
  assert (forall payload : jobject,
    dict_lookup (dict_set payload "apiKey" KEY) "apiKey" = Some KEY) as Hkey.
  { intros payload. rewrite dict_lookup_set. by rewrite decide_True. }
  induction upstream as [|r upstream IH]; intros url payload overload self;
    rewrite query_all_unfold; cbv zeta; rewrite prepend_snd;
    (apply Forall_app; split;
     [apply Forall_app; split;
      [destruct (throttle_cases self overload) as [->|(_ & _ & ->)];
       repeat constructor
      |repeat constructor; apply Hkey]|]).
  - constructor.
  - cbn [await_response]. rewrite prepend_snd. apply Forall_cons. split; [done|].
    by_class r; cbn [snd]; try apply IH; constructor.
Qed.

(** Each request of [query_all] is the one its log line announces. *)
Lemma query_all_sent_as_logged upstream : forall url payload overload (self : paginator),
  sent_as_logged KEY (query_all upstream url payload overload self).2.
Proof.
  assert (forall payload : jobject,
    dict_lookup (dict_set payload "apiKey" KEY) "apiKey" = Some KEY) as Hkey.
  { intros payload. rewrite dict_lookup_set. by rewrite decide_True. }
  induction upstream as [|r upstream IH]; intros url payload overload self;
    rewrite query_all_unfold; cbv zeta; rewrite prepend_snd;
    destruct (throttle_cases self overload) as [->|(_ & _ & ->)];
    cbn [fst snd app sent_as_logged await_response]; rewrite ?prepend_snd;
    cbn [app sent_as_logged]; (split_and!; [done|done|apply Hkey|]); try done;
    by_class r; cbn [snd sent_as_logged]; try apply IH; done.
Qed.

Lemma query_vars_refused (params : pydict string param) :
  Exists (fun kp => refused kp.2) params -> query_vars params = Raise TypeError.
Proof.
  induction 1 as [[k p] params Hp|[k p] params _ IH]; cbn [query_vars snd] in *.
  - by destruct p as [b|[| |]].
  - rewrite IH. by destruct p as [b|[| |]].
Qed.

Lemma query_vars_spec (params : pydict string param) :
  match query_vars params with
  | Ok vs => vs = param_values params /\ Forall (fun kp => ~ refused kp.2) params
  | Raise e => e = TypeError /\ Exists (fun kp => refused kp.2) params
  end.
Proof.
  induction params as [|[k p] params IH]; [by split|].
  cbn [query_vars]. destruct p as [b|[|n|str]]; cbn [query_var mbind result_bind];
    try (split; [done|by left]);
    (destruct (query_vars params) as [vs|e];
     [destruct IH as [-> IH]; split; [done|by constructor; [intros []|]]
     |destruct IH as [-> IH]; split; [done|by right]]).
Qed.

Lemma dict_lookup_param_values (params : pydict string param) k :
  dict_lookup (param_values params) k = param_value <$> dict_lookup params k.
Proof.
  unfold param_values. induction params as [|[k' p] params IH]; [done|].
  rewrite fmap_cons. cbn [dict_lookup fst snd]. by case_decide.
Qed.

Lemma param_values_set (params : pydict string param) k p :
  param_values (dict_set params k p) = dict_set (param_values params) k (param_value p).
Proof.
  unfold param_values. induction params as [|[k' p'] params IH]; [done|].
  cbn [dict_set]. rewrite fmap_cons. cbn [dict_set fst snd].
  case_decide; rewrite fmap_cons; [done|]. by rewrite IH.
Qed.

(** The first request of a run is the one of its invocation. *)
Lemma query_all_first_request upstream url payload overload (self : paginator) :
  head (requests (query_all upstream url payload overload self).2) =
    Some (url, dict_set payload "apiKey" KEY).
Proof.
  destruct upstream; rewrite query_all_unfold; cbv zeta; rewrite prepend_snd;
    unfold requests; rewrite !omap_app; fold requests;
    by rewrite requests_throttle.
Qed.

(** A run whose parameters the client refuses: the governor and the log
    line, then [TypeError]. *)
Lemma query_all_params_refused upstream url (payload : pydict string param) overload
    (self : paginator) :
  Exists (fun kp => refused kp.2) (dict_set payload "apiKey" (Param KEY)) ->
  query_all_params KEY t2d upstream url payload overload self =
    (Raised TypeError, (throttle t2d self overload).1,
     (throttle t2d self overload).2 ++
       [LogInfo url (param_values (dict_set payload "apiKey" (Param KEY))) overload]).
Proof.
  intros Href. unfold query_all_params. cbv zeta.
  rewrite (query_vars_refused _ Href). by destruct (throttle t2d self overload).
Qed.

(** X5. Every request a run of [query_all] sends comes directly after the
    log line of its invocation, goes to the URL that line shows with the
    parameters that line shows, and holds the credential under ["apiKey"],
    whatever the caller's payload held under that key. A request is sent
    only with parameters the client accepts: when the credential is [None],
    or the payload holds a [bool] or [None], the run logs its line, raises
    [TypeError] and sends nothing. *)
Theorem query_all_params_sent_as_logged upstream url (payload : pydict string param)
    overload (self : paginator) :
  let params := dict_set payload "apiKey" (Param KEY) in
  let run := query_all_params KEY t2d upstream url payload overload self in
  sent_as_logged KEY run.2 /\
  Forall (carries_key KEY) run.2 /\
  head (requests run.2) = (if decide (Exists (fun kp => refused kp.2) params)
                           then None else Some (url, param_values params)) /\
  (Exists (fun kp => refused kp.2) params ->
   run.1.1 = Raised TypeError /\ requests run.2 = [] /\
   last run.2 = Some (LogInfo url (param_values params) overload)).
Proof.
  intros params run.
  assert (dict_lookup (param_values params) "apiKey" = Some KEY) as Hkey.
  { unfold params. rewrite dict_lookup_param_values, dict_lookup_set.
    by rewrite decide_True. }
  pose proof (query_vars_spec params) as Hspec.
  unfold run, query_all_params. cbv zeta. fold params.
  destruct (query_vars params) as [vs|e].
  - destruct Hspec as [-> Hok].
    assert (~ Exists (fun kp => refused kp.2) params) as Hnone.
    { rewrite Exists_exists. intros (kp & Hin & Href).
      rewrite Forall_forall in Hok. by apply (Hok kp). }
    split; [apply query_all_sent_as_logged|].
    split; [apply query_all_shows_key|].
    split; [|done]. rewrite decide_False by done.
    rewrite query_all_first_request. do 2 f_equal. unfold params.
    by rewrite param_values_set, dict_set_idem.
  - destruct Hspec as [-> Href].
    assert (requests (throttle t2d self overload).2 = []) as Hthr
      by apply requests_throttle.
    destruct (throttle_cases self overload) as [Ht|(_ & _ & Ht)];
      rewrite Ht in *; cbn [fst snd app sent_as_logged requests omap];
      (split; [done|]); (split; [repeat constructor; exact Hkey|]);
      rewrite decide_True by done; split_and!; try done; intros _; split_and!; done.
Qed.

(** X6. After a 200 page with a cursor, the next request goes to the
    cursor's URL with the credential as its only parameter: the payload of
    the call that fetched the page is not sent again. *)
Theorem query_all_follows_cursor r upstream url payload overload (self : paginator) :
  status r = 200%Z ->
  truthy (next_url (json r)) = true ->
  requests (query_all (r :: upstream) url payload overload self).2 !! 1 =
    Some (next_url (json r), [("apiKey", KEY)]).
Proof.
  intros Hst Hnext. rewrite query_all_unfold. cbv zeta.
  rewrite prepend_snd. cbn [await_response]. rewrite prepend_snd.
  rewrite Hst, Hnext. change (200 =? 200)%Z with true. cbv iota.
  rewrite query_all_unfold. cbv zeta. rewrite prepend_snd.
  unfold requests. rewrite !omap_app. fold requests.
  rewrite !requests_throttle. reflexivity.
Qed.

End engine_more.

(** * Further properties of the batch sequencer *)

Section batch_more.
Import PolygonPaginator.
Context {timestamp : Type}.

Local Abbreviation paginator := (paginator timestamp).

Lemma round_div_large b : (120000 <= b)%Z -> round_div 60000 b = 0%Z.
Proof.
  intros Hb. unfold round_div.
  rewrite (Z.div_small 60000 b), (Z.mod_small 60000 b) by lia.
  destruct (Z.ltb_spec (2 * 60000) b); [done|].
  destruct (Z.ltb_spec b (2 * 60000)); [lia|done].
Qed.

(** X7. How the generator of [make_clean_generator] ends is decided by the
    first record alone: [IndexError] when there is none, [ZeroDivisionError]
    when it has no field, [ValueError] (a zero [range] step) when it has
    120000 fields or more, and a normal end exactly when it has between 1
    and 119999 fields. Whenever it ends in an exception it has yielded no
    batch. *)
Theorem make_clean_generator_end (self : paginator) :
  match clean_results self !! 0 with
  | None => make_clean_generator self = ([], Some IndexError)
  | Some first =>
      let n := Z.of_nat (length first) in
      (n = 0%Z -> make_clean_generator self = ([], Some ZeroDivisionError)) /\
      ((120000 <= n)%Z -> make_clean_generator self = ([], Some ValueError)) /\
      ((0 < n < 120000)%Z -> (make_clean_generator self).2 = None)
  end.
Proof.
  destruct (clean_results self !! 0) as [first|] eqn:Hfirst.
  - cbv zeta. split_and!.
    + intros Hn. unfold make_clean_generator. by rewrite Hfirst, Hn.
    + intros Hn. unfold make_clean_generator. rewrite Hfirst.
      destruct (Z.eqb_spec (Z.of_nat (length first)) 0); [lia|].
      by rewrite round_div_large.
    + intros Hn. rewrite (make_clean_generator_batches self first); [done|done|lia|].
      pose proof (round_div_pos _ Hn). lia.
  - unfold make_clean_generator. by rewrite Hfirst.
Qed.

Lemma length_concat_uniform {A} (n : nat) (ls : list (list A)) :
  Forall (fun l => length l = n) ls -> length (concat ls) = n * length ls.
Proof.
  induction 1 as [|l ls Hl _ IH]; simpl; [lia|]. rewrite length_app, IH, Hl. lia.
Qed.

Lemma canonical_field_count k (r : jobject) :
  canonical k r -> length r = length (canonical_fields k).
Proof.
  unfold canonical, dict_keys. intros <-. by rewrite length_fmap.
Qed.

(** X8. Over normalized records of one data kind, every batch of the
    generator holds records of that kind and at most 60003 field values in
    all (6667 records of 9 fields, or 6000 of 10): a batch can pass the
    60000 the batch size is computed from, by less than one record. *)
Theorem batch_weight (k : data_kind) (self : paginator) batch :
  Forall (canonical k) (clean_results self) ->
  batch ∈ (make_clean_generator self).1 ->
  Forall (canonical k) batch /\
  (Z.of_nat (length (concat batch)) <= 60003)%Z.
Proof.
  intros Hcan Hin.
  destruct (clean_results self !! 0) as [first|] eqn:Hfirst.
  2:{ unfold make_clean_generator in Hin. rewrite Hfirst in Hin.
      by apply elem_of_nil in Hin. }
  assert (canonical k first) as Hk.
  { rewrite Forall_forall in Hcan. apply Hcan. by eapply list_elem_of_lookup_2. }
  pose proof (canonical_field_count k first Hk) as Hlen.
  assert (0 < length first) as Hpos by (rewrite Hlen; destruct k; simpl; lia).
  assert (0 < Z.to_nat (round_div 60000 (Z.of_nat (length first)))) as Hsize
    by (rewrite Hlen; destruct k; vm_compute; lia).
  rewrite (make_clean_generator_batches self first Hfirst Hpos Hsize) in Hin.
  cbn [fst] in Hin. apply list_elem_of_fmap in Hin as (i & -> & _).
  rewrite slice_step.
  assert (Forall (canonical k)
            (take (Z.to_nat (round_div 60000 (Z.of_nat (length first))))
               (drop i (clean_results self)))) as Hbatch
    by by apply Forall_take, Forall_drop.
  split; [done|].
  rewrite (length_concat_uniform (length (canonical_fields k))).
  2:{ eapply Forall_impl; [exact Hbatch|]. intros r. apply canonical_field_count. }
  rewrite length_take, Hlen.
  destruct k; cbn [canonical_fields length fmap list_fmap app
                   StockMetaData.selected_keys HistoricalStockPrices.key_mapping
                   OptionsContracts.key_mapping];
    [change (round_div 60000 (Z.of_nat 9)) with 6667%Z
    |change (round_div 60000 (Z.of_nat 10)) with 6000%Z
    |change (round_div 60000 (Z.of_nat 9)) with 6667%Z]; lia.
Qed.

End batch_more.

(** * Further properties of the record normalizers *)

Section normalizer_more.
Import PolygonPaginator.
Context {timestamp : Type}.

Local Abbreviation paginator := (paginator timestamp).

Lemma for_each_app {A S} (body : A -> S -> S * option exn) (l1 l2 : list A) : forall s,
  for_each body (l1 ++ l2) s =
    match for_each body l1 s with
    | (s', None) => for_each body l2 s'
    | r => r
    end.
Proof.
  induction l1 as [|x l1 IH]; intros s; simpl; [done|].
  destruct (body x s) as [s' [e|]]; [done|]. apply IH.
Qed.

Lemma for_each_skip {A S} (body : A -> S -> S * option exn) (l : list A) s :
  (forall x s, x ∈ l -> body x s = (s, None)) ->
  for_each body l s = (s, None).
Proof.
  induction l as [|x l IH]; intros Hbody; simpl; [done|].
  rewrite Hbody by left. apply IH. intros y s' Hy. apply Hbody. by right.
Qed.

Lemma page_without_records (pages : list page) p :
  Forall has_results pages -> page_records pages = [] -> p ∈ pages ->
  page_results p = Some [].
Proof.
  intros Hres Hrec Hp. rewrite Forall_forall in Hres.
  destruct (Hres p Hp) as [records Hp'].
  destruct records as [|record records]; [done|].
  assert (record ∈ page_records pages) as Hin.
  { unfold page_records. apply list_elem_of_bind. exists p. split; [|done].
    rewrite Hp'. left. }
  rewrite Hrec in Hin. by apply elem_of_nil in Hin.
Qed.

(** X9. Over pages that all have a results array but hold no record, the
    [clean_data] of every kind returns normally and leaves the instance as
    it was; [OptionsContracts.clean_data] then does not even deduplicate
    what [clean_results] already holds. *)
Theorem clean_data_without_records
    (timestamp_to_datetime_msec : pyval -> result pyval)
    (ticker_id : pyval) (self : paginator) :
  Forall has_results (results self) ->
  page_records (results self) = [] ->
  StockMetaData.clean_data self = (self, None) /\
  HistoricalStockPrices.clean_data timestamp_to_datetime_msec ticker_id self
    = (self, None) /\
  OptionsContracts.clean_data ticker_id self = (self, None).
Proof.
  intros Hres Hrec.
  split_and!; apply for_each_skip; intros p s Hp;
    by rewrite (page_without_records _ p Hres Hrec Hp).
Qed.

(** X10. [clean_data] stops at the first page without a results array:
    with [KeyError] for ["results"] in [StockMetaData], with [TypeError] in
    the two other kinds. The records of the pages before that page have been
    normalized into [clean_results] and stay there; those of the pages after
    it are not visited. *)
Theorem clean_data_page_without_results
    (timestamp_to_datetime_msec : pyval -> result pyval)
    (ticker_id : pyval) (self : paginator) good bad rest :
  results self = good ++ bad :: rest ->
  Forall has_results good ->
  page_results bad = None ->
  StockMetaData.clean_data self =
    (set_clean_results self
       (clean_results self ++ (StockMetaData.normalize <$> page_records good)),
     Some (KeyError "results")) /\
  (forall ts,
     try_map (HistoricalStockPrices.normalize timestamp_to_datetime_msec ticker_id)
       (page_records good) = Ok ts ->
     HistoricalStockPrices.clean_data timestamp_to_datetime_msec ticker_id self =
       (set_clean_results self (clean_results self ++ ts), Some TypeError)) /\
  (Forall has_option_ticker (clean_results self) ->
   OptionsContracts.clean_data ticker_id self =
     (set_clean_results self
        (absorb (clean_results self)
           (OptionsContracts.normalize ticker_id <$> page_records good)),
      Some TypeError)).
Proof.
  intros Hpages Hgood Hbad. split_and!.
  - unfold StockMetaData.clean_data. rewrite Hpages, for_each_app.
    rewrite stock_clean_data_pages by done. cbn [for_each]. by rewrite Hbad.
  - intros ts Hts. unfold HistoricalStockPrices.clean_data.
    rewrite Hpages, for_each_app.
    rewrite (prices_clean_data_pages _ _ good ts) by (try done; by apply try_map_Ok).
    cbn [for_each]. by rewrite Hbad.
  - intros Hself. unfold OptionsContracts.clean_data. rewrite Hpages, for_each_app.
    rewrite options_clean_data_pages by done. cbn [for_each]. by rewrite Hbad.
Qed.

Lemma first_occurrences_snoc {A} `{EqDecision A} (l : list A) x :
  first_occurrences (l ++ [x]) =
    if decide (x ∈ l) then first_occurrences l else first_occurrences l ++ [x].
Proof.
  unfold first_occurrences. rewrite reverse_snoc. cbn [remove_dups].
  destruct (decide_rel elem_of x (reverse l)) as [Hin|Hnin].
  - rewrite decide_True; [done|by apply elem_of_reverse].
  - rewrite decide_False; [by rewrite reverse_cons|].
    by rewrite <- elem_of_reverse.
Qed.

Lemma elem_of_first_occurrences {A} `{EqDecision A} (l : list A) x :
  x ∈ first_occurrences l <-> x ∈ l.
Proof.
  unfold first_occurrences. by rewrite elem_of_reverse, elem_of_remove_dups, elem_of_reverse.
Qed.

Lemma keyed_values_keys (d : pydict pyval jobject) :
  Forall (fun kv => kv.1 = option_ticker kv.2) d ->
  option_ticker <$> dict_values d = dict_keys d.
Proof.
  unfold dict_values, dict_keys. induction 1 as [|[k v] d Hk _ IH]; [done|].
  rewrite !fmap_cons. cbn [fst snd] in *. by rewrite IH, Hk.
Qed.

Lemma index_keys l :
  dict_keys (index_by_ticker [] l) = first_occurrences (option_ticker <$> l).
Proof.
  induction l as [|v l IH] using rev_ind; [done|].
  rewrite index_snoc, dict_keys_set, fmap_snoc, first_occurrences_snoc, IH.
  destruct (decide (option_ticker v ∈ first_occurrences (option_ticker <$> l)))
    as [Hin|Hnin].
  - rewrite decide_True; [done|by apply elem_of_first_occurrences].
  - rewrite decide_False; [done|]. by rewrite <- elem_of_first_occurrences.
Qed.

(** X11. When the pages hold a record, [OptionsContracts.clean_data] leaves
    in [clean_results] one record for each option ticker among the records
    [clean_results] held and those of the pages, in the order in which the
    tickers first appear there. *)
Theorem options_clean_data_order (ticker_id : pyval) (self : paginator) :
  Forall has_results (results self) ->
  Forall has_option_ticker (clean_results self) ->
  page_records (results self) <> [] ->
  let self' := (OptionsContracts.clean_data ticker_id self).1 in
  option_ticker <$> clean_results self' =
    first_occurrences
      ((option_ticker <$> clean_results self)
         ++ ((fun record => dict_get record "ticker") <$> page_records (results self)))
  /\ NoDup (option_ticker <$> clean_results self').
Proof.
  intros Hres Hself Hne. cbv zeta. rewrite options_clean_data by done.
  cbn [fst clean_results set_clean_results].
  destruct (page_records (results self)) as [|record records] eqn:Hrec; [done|].
  rewrite fmap_cons. cbn [absorb]. rewrite <- fmap_cons.
  unfold dedup. rewrite keyed_values_keys by (by apply index_keyed).
  split.
  - rewrite index_keys, fmap_app. f_equal. f_equal.
    rewrite <- list_fmap_compose. done.
  - apply index_NoDup. apply NoDup_nil_2.
Qed.

End normalizer_more.

(** * The requests of the inheriting classes *)

Section fetch_more.
Import PolygonPaginator.
Context {timestamp : Type}.
Variable KEY : pyval.
Variable t2d : timestamp -> Z.

Local Abbreviation query_all := (PolygonPaginator.query_all KEY t2d).
Local Abbreviation paginator := (paginator timestamp).
Local Abbreviation response := (response timestamp).

(** [query_all] touches neither [clean_results] nor the generator. *)
Lemma query_all_clean upstream : forall url payload overload (self : paginator),
  clean_results (query_all upstream url payload overload self).1.2 = clean_results self /\
  clean_data_generator (query_all upstream url payload overload self).1.2
    = clean_data_generator self.
Proof.
  assert (forall (self : paginator) overload,
    clean_results (throttle t2d self overload).1 = clean_results self /\
    clean_data_generator (throttle t2d self overload).1 = clean_data_generator self)
    as Hthrottle.
  { intros self overload. unfold throttle. by case_match. }
  assert (forall r (self : paginator),
    clean_results (received r self) = clean_results self /\
    clean_data_generator (received r self) = clean_data_generator self) as Hreceived.
  { intros r self. unfold received. by case_match. }
  induction upstream as [|r upstream IH]; intros url payload overload self;
    rewrite query_all_unfold; cbv zeta; rewrite prepend_fst.
  - apply Hthrottle.
  - cbn [await_response]. rewrite prepend_fst.
    destruct (Hthrottle self overload) as [<- <-].
    destruct (Hreceived r (throttle t2d self overload).1) as [<- <-].
    destruct (status r =? 200)%Z; [destruct (truthy _)|destruct (status r =? 429)%Z];
      cbn [fst snd]; try done; apply IH.
Qed.

Lemma single_batch {A} (l : list A) step :
  0 < length l <= step ->
  (fun i => slice l i (i + step)) <$> py_range (length l) step = [l].
Proof.
  intros Hlen. unfold py_range.
  assert ((length l + step - 1) `div` step = 1) as ->.
  { symmetry. apply (Nat.div_unique _ _ _ (length l - 1)); lia. }
  cbn [seq fmap list_fmap]. rewrite slice_step, drop_0. by rewrite take_ge by lia.
Qed.

(** [fetch] lets the exception of a refused request through and touches
    nothing else. *)
Lemma fetch_refused url (payload : pydict string param)
    (clean_data : paginator -> paginator * option exn) upstream (self : paginator) :
  Exists (fun kp => refused kp.2) (dict_set payload "apiKey" (Param KEY)) ->
  let query_data upstream self :=
    query_all_params KEY t2d upstream url payload false self in
  let run := fetch query_data clean_data upstream self in
  run = query_data upstream self /\
  run.1.1 = Raised TypeError /\
  run.1.2 = (throttle t2d self false).1 /\
  requests run.2 = [] /\
  results run.1.2 = results self /\
  clean_results run.1.2 = clean_results self /\
  clean_data_generator run.1.2 = clean_data_generator self /\
  drain run.1.2 = drain self /\
  ((query_count self < MAX_QUERY_PER_MINUTE)%Z -> run.1.2 = self).
Proof.
  intros Href query_data run.
  assert (run = query_data upstream self) as Hrun.
  { unfold run, fetch, query_data.
    by rewrite (query_all_params_refused KEY t2d upstream url payload false self Href). }
  rewrite Hrun. unfold query_data.
  rewrite (query_all_params_refused KEY t2d upstream url payload false self Href).
  cbn [fst snd]. unfold requests. rewrite omap_app. fold requests.
  rewrite requests_throttle.
  unfold throttle.
  destruct (Z.leb_spec MAX_QUERY_PER_MINUTE (query_count self)); cbn [orb fst snd];
    split_and!; try done; lia.
Qed.

(** X12. [fetch] of a [StockMetaData] instance never sends a request. Its
    [self.payload] holds ["active": True], a [bool], which the HTTP client
    refuses: whatever the ticker, the [all_] flag, the credential, the state
    of the instance and the answers the upstream would give, [query_data]
    raises [TypeError] once the governor and the log line of [query_all]
    have run, [fetch] lets the exception through without calling
    [clean_data], and [results], [clean_results] and the generator are what
    they were; below the quota the whole state is. *)
Theorem stock_fetch_refused (ticker : pyval) (all_ : bool)
    (upstream : list response) (self : paginator) :
  let run :=
    fetch (StockMetaData.query_data KEY t2d ticker all_) StockMetaData.clean_data
      upstream self in
  run = StockMetaData.query_data KEY t2d ticker all_ upstream self /\
  run.1.1 = Raised TypeError /\
  run.1.2 = (throttle t2d self false).1 /\
  requests run.2 = [] /\
  results run.1.2 = results self /\
  clean_results run.1.2 = clean_results self /\
  clean_data_generator run.1.2 = clean_data_generator self /\
  drain run.1.2 = drain self /\
  ((query_count self < MAX_QUERY_PER_MINUTE)%Z -> run.1.2 = self).
Proof.
  apply (fetch_refused (PStr ("https://api.polygon.io" +:+ "/v3/reference/tickers"))
           (if negb all_ then dict_set StockMetaData.payload "ticker" (Param ticker)
            else StockMetaData.payload)).
  destruct all_; by left.
Qed.

(** X13. [fetch] of a [HistoricalStockPrices] instance never sends a
    request either: its payload holds ["adjusted": self.adjusted], a [bool]
    whether it is [True] or [False]. [query_data] raises [TypeError] once
    the governor and the log line have run, [fetch] lets it through, no bar
    is collected and the generator is what it was. *)
Theorem prices_fetch_refused
    (timestamp_to_datetime_msec : pyval -> result pyval)
    (ticker : string) (ticker_id : pyval) (multiplier : Z) (timespan : string)
    (start_date end_date : string) (adjusted : bool)
    (upstream : list response) (self : paginator) :
  let query_data :=
    HistoricalStockPrices.query_data KEY t2d ticker multiplier timespan
      start_date end_date adjusted in
  let run :=
    fetch query_data
      (HistoricalStockPrices.clean_data timestamp_to_datetime_msec ticker_id)
      upstream self in
  run = query_data upstream self /\
  run.1.1 = Raised TypeError /\
  run.1.2 = (throttle t2d self false).1 /\
  requests run.2 = [] /\
  results run.1.2 = results self /\
  clean_results run.1.2 = clean_results self /\
  clean_data_generator run.1.2 = clean_data_generator self /\
  drain run.1.2 = drain self /\
  ((query_count self < MAX_QUERY_PER_MINUTE)%Z -> run.1.2 = self).
Proof.
  apply (fetch_refused
           (PStr ("https://api.polygon.io" +:+ "/v2/aggs/ticker/" +:+ ticker
                  +:+ "/range/" +:+ pretty multiplier +:+ "/" +:+ timespan
                  +:+ "/" +:+ start_date +:+ "/" +:+ end_date))
           [("adjusted", ParamBool adjusted); ("sort", Param (PStr "desc"));
            ("limit", Param (PInt 50000))]).
  by left.
Qed.

End fetch_more.

(** * Further properties of the calendar window generator *)

Section calendar_more.
Context {date : Type}.
Variable first_weekday_of_month : string -> date.
Variable date_str : date -> string.

Local Abbreviation _determine_base_dates :=
  (OptionsContracts._determine_base_dates first_weekday_of_month date_str).

(** The year-month [j] months before the month [month] of [year]. *)
Local Abbreviation months_back year month j :=
  (year_month ((12 * year + (month - 1) - Z.of_nat j) `div` 12)
     ((12 * year + (month - 1) - Z.of_nat j) `mod` 12 + 1)).

Lemma base_dates_loop_months fuel : forall months_hist counter year month arr,
  (1 <= month <= 12)%Z ->
  Z.to_nat (months_hist + 1 - counter) <= fuel ->
  OptionsContracts.base_dates_loop fuel months_hist counter year month arr =
    Some (arr ++ ((fun j => months_back year month j)
                    <$> seq 0 (Z.to_nat (months_hist + 1 - counter)))).
Proof.
  induction fuel as [|fuel IH]; intros months_hist counter year month arr Hm Hfuel;
    cbn [OptionsContracts.base_dates_loop];
    destruct (Z.leb_spec counter months_hist) as [Hle|Hgt]; try lia;
    try (replace (Z.to_nat (months_hist + 1 - counter)) with 0 by lia;
         by rewrite app_nil_r).
  replace (Z.to_nat (months_hist + 1 - counter))
    with (S (Z.to_nat (months_hist + 1 - (counter + 1)))) by lia.
  fold (year_month year month).
  assert (year_month year month = months_back year month 0) as Hhead.
  { rewrite <- (Z.div_unique (12 * year + (month - 1) - Z.of_nat 0) 12 year
                  (month - 1)) by lia.
    rewrite <- (Z.mod_unique (12 * year + (month - 1) - Z.of_nat 0) 12 year
                  (month - 1)) by lia.
    f_equal. lia. }
  cbn [seq fmap list_fmap]. rewrite <- fmap_S_seq, <- list_fmap_compose.
  destruct (Z.eqb_spec month 1) as [->|Hne]; rewrite IH by lia;
    rewrite <- app_assoc; cbn [app]; rewrite <- Hhead;
    do 3 f_equal; apply list_fmap_ext; intros _ j _; cbn [compose];
    (f_equal; [f_equal; lia|do 2 f_equal; lia]).
Qed.

(** X14. Whatever the current month and the months of history,
    [_determine_base_dates] returns [months_hist + 1] dates, none when
    [months_hist] is negative, and the date at position [j] is the first
    weekday of the month [j] calendar months before the current one. *)
Theorem _determine_base_dates_months now_year now_month months_hist :
  (1 <= now_month <= 12)%Z ->
  exists dates,
    _determine_base_dates now_year now_month months_hist = Some dates /\
    length dates = Z.to_nat (months_hist + 1) /\
    forall j,
      j < length dates ->
      dates !! j =
        Some (date_str (first_weekday_of_month (months_back now_year now_month j))).
Proof.
  intros Hm. unfold OptionsContracts._determine_base_dates.
  rewrite base_dates_loop_months by lia. cbn [app].
  eexists. split; [done|].
  rewrite !length_fmap, length_seq. split; [f_equal; lia|].
  intros j Hj. rewrite !list_lookup_fmap, lookup_seq_lt by lia. done.
Qed.

End calendar_more.

(** * The command line *)

Section main_facts.
Import Main.
Context {datetime : Type}.
Variable strptime : string -> result datetime.
Variable default_startdate default_enddate : string.

Local Abbreviation main := (Main.main strptime default_startdate default_enddate).

(** X15. A command line that gives [--startdate] or [--enddate] never
    reaches the orchestrator: argparse stores the value of such an option as
    a list of one string, [datetime.strptime] raises [TypeError] on it, and
    [main] ends there. Only the defaults, which are strings, get parsed. *)
Theorem main_dates_given (cl : command_line) start :
  strptime default_startdate = Ok start ->
  is_Some (cl_startdate cl) \/ is_Some (cl_enddate cl) ->
  main cl = Failed TypeError.
Proof.
  intros Hstart Hgiven. unfold Main.main.
  destruct (cl_startdate cl) as [s|]; [done|].
  cbn [nargs_1 strptime_attribute]. rewrite Hstart.
  destruct Hgiven as [[? [=]]|[e ->]]. done.
Qed.

End main_facts.

(** * The further properties at sample inputs *)

Section more_samples.
Import PolygonPaginator Sample.

Local Abbreviation query_all := (PolygonPaginator.query_all api_key to_datetime).


Lemma query_all_follows_cursor_witness :
  requests (query_all two_pages url (contract "O:A" 100) false fresh).2 !! 1 =
    Some (next_url page_1, [("apiKey", api_key)]).
Proof.
  exact (query_all_follows_cursor api_key to_datetime (reply 200 page_1 1000000)
           _ url (contract "O:A" 100) false fresh eq_refl eq_refl).
Defined.

Lemma batch_weight_witness :
  Forall (canonical OptionContract) (clean_results many_contracts) /\
  clean_results many_contracts ∈ (make_clean_generator many_contracts).1 /\
  (Z.of_nat (length (concat (clean_results many_contracts))) <= 60003)%Z.
Proof.
  assert (Forall (canonical OptionContract) (clean_results many_contracts)) as H1.
  { apply Forall_replicate. reflexivity. }
  assert (clean_results many_contracts ∈ (make_clean_generator many_contracts).1) as H2.
  { rewrite (make_clean_generator_batches many_contracts
               (OptionsContracts.normalize (PInt 7) (contract "O:A" 100)));
      [|apply lookup_replicate_2; lia|simpl; lia|vm_compute; lia].
    cbn [fst]. rewrite single_batch; [left|].
    change (clean_results many_contracts) with
      (replicate (Z.to_nat 6667)
         (OptionsContracts.normalize (PInt 7) (contract "O:A" 100))).
    rewrite length_replicate. vm_compute. lia. }
  split; [exact H1|]. split; [exact H2|].
  exact (proj2 (batch_weight OptionContract many_contracts _ H1 H2)).
Defined.

Lemma clean_data_without_records_witness :
  Forall has_results (results no_records) /\
  page_records (results no_records) = [] /\
  OptionsContracts.clean_data (PInt 7) no_records = (no_records, None).
Proof.
  assert (Forall has_results (results no_records)) as H1
    by (repeat constructor; by eexists).
  assert (page_records (results no_records) = []) as H2 by reflexivity.
  split; [exact H1|]. split; [exact H2|].
  exact (proj2 (proj2 (clean_data_without_records to_datetime_msec (PInt 7)
                         no_records H1 H2))).
Defined.

Lemma clean_data_page_without_results_witness :
  results broken = [page_1] ++ no_page :: [page_2] /\
  StockMetaData.clean_data broken =
    (set_clean_results broken
       (StockMetaData.normalize <$> [contract "O:A" 100; contract "O:B" 105]),
     Some (KeyError "results")).
Proof.
  assert (results broken = [page_1] ++ no_page :: [page_2]) as H1 by reflexivity.
  assert (Forall has_results [page_1]) as H2 by (repeat constructor; by eexists).
  split; [exact H1|].
  exact (proj1 (clean_data_page_without_results to_datetime_msec (PInt 7) broken
                  [page_1] no_page [page_2] H1 H2 eq_refl)).
Defined.

Lemma options_clean_data_order_witness :
  page_records (results collected) <> [] /\
  option_ticker <$> clean_results (OptionsContracts.clean_data (PInt 7) collected).1
    = [PStr "O:A"; PStr "O:B"].
Proof.
  assert (Forall has_results (results collected)) as H1
    by (repeat constructor; by eexists).
  assert (Forall has_option_ticker (clean_results collected)) as H2 by constructor.
  assert (page_records (results collected) <> []) as H3 by discriminate.
  split; [exact H3|].
  exact (proj1 (options_clean_data_order (PInt 7) collected H1 H2 H3)).
Defined.

(** Without a credential ([POLYGON_API_KEY] is [None]) a call of
    [query_all] logs its line and raises [TypeError]: no request is sent. *)
Lemma query_all_params_sent_as_logged_witness :
  let run := query_all_params PNone to_datetime two_pages url [] false fresh in
  run = (Raised TypeError, fresh, [LogInfo url [("apiKey", PNone)] false]) /\
  run.1.1 = Raised TypeError /\ requests run.2 = [] /\
  last run.2 = Some (LogInfo url [("apiKey", PNone)] false).
Proof.
  intros run. split; [reflexivity|].
  destruct (query_all_params_sent_as_logged PNone to_datetime two_pages url [] false
              fresh) as (_ & _ & _ & Hrefused).
  apply Hrefused. left. exact I.
Defined.

(** [StockMetaData("ABC", all_=False).fetch()] and
    [HistoricalStockPrices("ABC", 7, ...).fetch()] on new instances: one log
    line, no request. *)
Lemma stock_fetch_refused_witness :
  fetch (StockMetaData.query_data api_key to_datetime (PStr "ABC") false)
    StockMetaData.clean_data two_pages fresh =
    (Raised TypeError, fresh,
     [LogInfo (PStr "https://api.polygon.io/v3/reference/tickers")
        [("active", PInt 1); ("market", PStr "stocks"); ("limit", PInt 1000);
         ("ticker", PStr "ABC"); ("apiKey", api_key)] false]) /\
  drain fresh = ([], None).
Proof.
  destruct (stock_fetch_refused api_key to_datetime (PStr "ABC") false two_pages fresh)
    as (Hrun & _).
  split; [|reflexivity]. cbv zeta in Hrun. rewrite Hrun. reflexivity.
Defined.

Lemma prices_fetch_refused_witness :
  fetch
    (HistoricalStockPrices.query_data api_key to_datetime "ABC" 1 "day"
       "2023-01-01" "2023-01-05" false)
    (HistoricalStockPrices.clean_data to_datetime_msec (PInt 7))
    two_pages fresh =
    (Raised TypeError, fresh,
     [LogInfo (PStr "https://api.polygon.io/v2/aggs/ticker/ABC/range/1/day/2023-01-01/2023-01-05")
        [("adjusted", PInt 0); ("sort", PStr "desc"); ("limit", PInt 50000);
         ("apiKey", api_key)] false]).
Proof.
  destruct (prices_fetch_refused api_key to_datetime to_datetime_msec "ABC" (PInt 7)
              1 "day" "2023-01-01" "2023-01-05" false two_pages fresh)
    as (Hrun & _).
  cbv zeta in Hrun. rewrite Hrun. reflexivity.
Defined.

Lemma _determine_base_dates_months_witness :
  exists dates,
    OptionsContracts._determine_base_dates (fun ym => ym) (fun d => d) 2024 2 13
      = Some dates /\
    dates !! 2 = Some "2023-12".
Proof.
  destruct (_determine_base_dates_months (fun ym : string => ym) (fun d => d)
              2024 2 13 ltac:(lia)) as (dates & Hrun & Hlen & Hat).
  exists dates. split; [exact Hrun|]. rewrite Hat by (rewrite Hlen; simpl; lia).
  reflexivity.
Defined.

Lemma main_dates_given_witness :
  is_Some (Main.cl_startdate with_startdate) /\
  Main.main parse_date "2022-11" "2024-11" with_startdate = Main.Failed TypeError.
Proof.
  assert (is_Some (Main.cl_startdate with_startdate)) as H by (by eexists).
  split; [exact H|].
  exact (main_dates_given parse_date "2022-11" "2024-11" with_startdate "2022-11"
           eq_refl (or_introl H)).
Defined.

End more_samples.

(** * Pacing *)

Section engine_pacing.
Import PolygonPaginator.
Context {timestamp : Type}.
Variable KEY : pyval.
Variable t2d : timestamp -> Z.

Local Abbreviation query_all := (PolygonPaginator.query_all KEY t2d).
Local Abbreviation paginator := (paginator timestamp).
Local Abbreviation response := (response timestamp).

(** A 200 page with a cursor, received below the quota. *)
Lemma query_all_page_next (r : response) upstream url payload (self : paginator) :
  status r = 200%Z -> truthy (next_url (json r)) = true ->
  (query_count self < MAX_QUERY_PER_MINUTE)%Z ->
  query_all (r :: upstream) url payload false self =
    prepend [LogInfo url (dict_set payload "apiKey" KEY) false;
             Get url (dict_set payload "apiKey" KEY); LogStatus 200]
      (query_all upstream (next_url (json r)) [] false (received r self)).
Proof.
  intros Hst Hnext Hlt. rewrite query_all_unfold. cbv zeta.
  unfold throttle. apply Z.leb_gt in Hlt. rewrite Hlt. cbn [orb fst snd app].
  cbn [await_response]. rewrite Hst, Hnext. change (200 =? 200)%Z with true. cbv iota.
  by rewrite prepend_prepend.
Qed.

(** X16. A new instance sends its first four requests back to back. When
    all four are answered by pages with a cursor, the fifth request is sent
    only after one sleep, of the time between the first and the fourth
    answer rounded up to whole seconds and capped at 60, not of what is left
    of the minute, and then with [query_count] at 0 and an empty log. *)
Theorem query_all_fifth_request (r1 r2 r3 r4 : response) rest url payload :
  Forall (fun r : response => status r = 200%Z /\ truthy (next_url (json r)) = true)
    [r1; r2; r3; r4] ->
  let key := [("apiKey", KEY)] in
  let seconds := Z.min 60 (ceil_div (t2d (clock r4) - t2d (clock r1)) 1000000) in
  exists s : paginator,
    query_count s = 0%Z /\ query_time_log s = [] /\
    results s = json <$> [r1; r2; r3; r4] /\
    query_all (r1 :: r2 :: r3 :: r4 :: rest) url payload false __init__ =
      prepend
        [LogInfo url (dict_set payload "apiKey" KEY) false;
         Get url (dict_set payload "apiKey" KEY); LogStatus 200;
         LogInfo (next_url (json r1)) key false; Get (next_url (json r1)) key;
         LogStatus 200;
         LogInfo (next_url (json r2)) key false; Get (next_url (json r2)) key;
         LogStatus 200;
         LogInfo (next_url (json r3)) key false; Get (next_url (json r3)) key;
         LogStatus 200;
         Sleep seconds;
         LogInfo (next_url (json r4)) key false; Get (next_url (json r4)) key]
        (await_response KEY t2d rest (next_url (json r4)) key s).
Proof.
  intros Hall key seconds.
  apply Forall_cons in Hall as [[H1 N1] Hall]. apply Forall_cons in Hall as [[H2 N2] Hall].
  apply Forall_cons in Hall as [[H3 N3] Hall]. apply Forall_cons in Hall as [[H4 N4] _].
  set (s4 := received r4 (received r3 (received r2 (received r1 __init__)))).
  exists (set_query_time_log (set_query_count s4 0) []).
  split; [done|]. split; [done|].
  split.
  { cbn [results set_query_time_log set_query_count]. unfold s4.
    rewrite !received_results, H1, H2, H3, H4. reflexivity. }
  do 4 (rewrite query_all_page_next
          by (try done; rewrite ?received_query_count; unfold MAX_QUERY_PER_MINUTE;
              simpl; lia)).
  rewrite !prepend_prepend, query_all_unfold. cbv zeta. rewrite prepend_prepend.
  fold s4. unfold throttle.
  assert (query_count s4 = 4%Z) as Hcount
    by (unfold s4; rewrite !received_query_count; reflexivity).
  rewrite Hcount. change (MAX_QUERY_PER_MINUTE <=? 4)%Z with true. cbn [orb fst snd].
  assert (_api_sleep_time t2d s4 = seconds) as ->.
  { unfold _api_sleep_time, s4. rewrite !received_query_time_log, H1, H2, H3, H4.
    change (200 =? 200)%Z with true. cbv iota. cbn [query_time_log __init__ app].
    rewrite decide_True by (simpl; lia). cbn [head last query_timestamp].
    unfold seconds.
    destruct (Z.ltb_spec (ceil_div (t2d (clock r4) - t2d (clock r1)) 1000000) 60); lia. }
  reflexivity.
Qed.

End engine_pacing.

Section pacing_samples.
Import PolygonPaginator Sample.

Lemma query_all_fifth_request_witness :
  let r := reply 200 page_1 in
  exists s t,
    PolygonPaginator.query_all api_key to_datetime
      [r 1000000%Z; r 1400000%Z; r 2100000%Z; r 3500000%Z] url [] false fresh
      = (Awaiting, s, t) /\
    t !! 12 = Some (Sleep 3).
Proof.
  intros r.
  destruct (query_all_fifth_request api_key to_datetime
              (r 1000000%Z) (r 1400000%Z) (r 2100000%Z) (r 3500000%Z) [] url [])
    as (s & _ & _ & _ & Hrun).
  { repeat constructor. }
  exists s. eexists. split; [exact Hrun|]. reflexivity.
Defined.

End pacing_samples.
